(** * Lazy spatial transforms of MONAI: [monai/transforms/spatial/functional.py]

    A shallow embedding of the functional spatial transforms (the builders
    [identity], [spacing], [flip], [resize], [rotate], [zoom], [rotate90],
    [elastic_3d], [translate]), of the dispatcher [lazily_apply_op] and of the
    shape calculator [transform_shape], with the properties the specification
    states about them.

    Conventions of the embedding:
    - Python [int] is [Z]; the floats that [resize] computes from ints
      (lines 394, 395 and 399) are IEEE 754 binary64 numbers, with the
      operations of [SpecFloat]; a float that a caller passes in (a zoom
      factor, a pixel size, an angle, an offset) and an entry of a tensor are
      carried as the rational they denote, and the quotients of such numbers
      (lines 220 and 537) and the products [transform @ extent] are taken
      exactly;
    - a Python exception is a value of [exn]; a function that may raise
      returns [Exc A];
    - the pending-operation logs of the tracked tensors live in a store
      indexed by object identity; code that reads or mutates them runs in the
      state and exception monad [M];
    - the metadata dictionary of a pending operation is a [gmap] from keys to
      [MetaVal]. *)

From stdpp Require Import gmap strings list.
From Stdlib Require Import QArith Qround Qminmax Qabs ZArith Lia Lqa SpecFloat.

Close Scope Q_scope.
Open Scope string_scope.
Open Scope nat_scope.
Open Scope list_scope.
Open Scope stdpp_scope.

(** ** Python values and exceptions *)

Inductive exn :=
| ValueError (msg : string)
| ZeroDivisionError
| OverflowError
| TypeError
| IndexError
| AttributeError (attr : string)
| RuntimeError (msg : string).

Definition Exc (A : Type) : Type := (exn + A)%type.

Module ExcMonad.
Definition bind {A B} (c : Exc A) (k : A -> Exc B) : Exc B :=
  match c with
  | inl e => inl e
  | inr a => k a
  end.
End ExcMonad.

Declare Scope exc_scope.
Delimit Scope exc_scope with exc.
Notation "x <- c ;; k" := (ExcMonad.bind c (fun x => k))
  (at level 100, c at next level, right associativity) : exc_scope.

(** [[f(x) for x in l]] for an [f] that may raise: the first exception wins. *)
Fixpoint mapE {A B} (f : A -> Exc B) (l : list A) : Exc (list B) :=
  match l with
  | [] => inr []
  | x :: xs =>
      match f x with
      | inl e => inl e
      | inr y =>
          match mapE f xs with
          | inl e => inl e
          | inr ys => inr (y :: ys)
          end
      end
  end.

(** Arguments that Python leaves untyped: a scalar, a sequence or [None]. *)
#[local] Unset Elimination Schemes.
Inductive py :=
| PyNone
| PyBool (b : bool)
| PyInt (z : Z)
| PyFloat (q : Q)
| PyStr (s : string)
| PyTuple (items : list py).
#[local] Set Elimination Schemes.

(** [isinstance(v, int)]; [bool] is a subclass of [int]. *)
Definition as_int (v : py) : option Z :=
  match v with
  | PyInt z => Some z
  | PyBool b => Some (if b then 1 else 0)%Z
  | _ => None
  end.

Definition as_number (v : py) : option Q :=
  match v with
  | PyFloat q => Some q
  | _ => inject_Z <$> as_int v
  end.

(** Truth value of [v] in [v or default]. *)
Definition truthy (v : py) : bool :=
  match v with
  | PyNone => false
  | PyBool b => b
  | PyInt z => negb (z =? 0)%Z
  | PyFloat q => negb (Qeq_bool q 0)
  | PyStr s => negb (String.eqb s "")
  | PyTuple items => negb (bool_decide (items = []))
  end.

(** True division [a / b] of two rationals. *)
Definition true_div (a b : Q) : Exc Q :=
  if Qeq_bool b 0 then inl ZeroDivisionError else inr (a / b)%Q.

(** [a / b] on untyped operands. *)
Definition py_div (a b : py) : Exc Q :=
  match as_number a, as_number b with
  | Some x, Some y => true_div x y
  | _, _ => inl TypeError
  end.

(** The integer nearest to the rational [x], a tie going to the even one. *)
Definition py_round (x : Q) : Z :=
  let f := Qfloor x in
  match Qcompare (x - inject_Z f) (1 # 2) with
  | Lt => f
  | Gt => (f + 1)%Z
  | Eq => if Z.even f then f else (f + 1)%Z
  end.

(** ** Binary64 arithmetic

    A Python [float] is an IEEE 754 binary64 number: precision 53, maximal
    exponent 1024.  An operation returns the binary64 number nearest to its
    exact result, a tie going to the even mantissa; these are [SFdiv],
    [SFmul] and [binary_normalize] of [SpecFloat]. *)

Definition float : Type := spec_float.

Definition float_div : float -> float -> float := SFdiv 53 1024.
Definition float_mul : float -> float -> float := SFmul 53 1024.

Definition is_infinite (x : float) : bool :=
  match x with
  | S754_infinity _ => true
  | _ => false
  end.

(** The int [z] as an operand that has not been rounded. *)
Definition exact_int (z : Z) : float :=
  match z with
  | Z0 => S754_zero false
  | Zpos m => S754_finite false m 0
  | Zneg m => S754_finite true m 0
  end.

(** [float(z)]: the binary64 number nearest to the int [z]; an int beyond the
    range of the floats raises. *)
Definition float_of_int (z : Z) : Exc float :=
  let x := binary_normalize 53 1024 z 0 false in
  if is_infinite x then inl OverflowError else inr x.

(** [a / b] on two ints: the exact quotient, rounded once. *)
Definition int_true_div (a b : Z) : Exc float :=
  if (b =? 0)%Z then inl ZeroDivisionError
  else
    let q := float_div (exact_int a) (exact_int b) in
    if is_infinite q then inl OverflowError else inr q.

(** [s * x] on an int and a float: [float(s) * x]. *)
Definition int_mul_float (s : Z) (x : float) : Exc float :=
  (s_ <- float_of_int s ;; inr (float_mul s_ x))%exc.

(** The rational that a finite float denotes. *)
Definition float_value (x : float) : Q :=
  match x with
  | S754_finite s m e =>
      let n := if s then Zneg m else Zpos m in
      match e with
      | Z0 => inject_Z n
      | Zpos p => inject_Z (n * 2 ^ Zpos p)
      | Zneg p => Qred (n # 2 ^ p)
      end
  | _ => 0%Q
  end.

(** [int(round(x))] on a float: the integer nearest to the value of [x], a
    tie going to the even one. *)
Definition round_float (x : float) : Exc Z :=
  match x with
  | S754_nan => inl (ValueError "cannot convert float NaN to integer")
  | S754_infinity _ => inl OverflowError
  | _ => inr (py_round (float_value x))
  end.

(** [x is True], [x is False] on an [Optional[bool]]. *)
Definition is_True (b : option bool) : bool :=
  match b with Some true => true | _ => false end.
Definition is_False (b : option bool) : bool :=
  match b with Some false => true | _ => false end.

(** ** Shapes, vectors and matrices *)

Abbreviation Shape := (list Z).
Abbreviation Vector := (list Q).
Abbreviation Matrix := (list (list Q)).

(** [len(shape) - 1], a Python [int]. *)
Definition ndim_of (shape : Shape) : Z := Z.of_nat (length shape) - 1.

Definition dot (row v : Vector) : Q :=
  foldr Qplus 0%Q (zip_with Qmult row v).

(** The matrix with [d] on its diagonal; [diagonal_matrix (f ++ [1])] is the
    homogeneous matrix of the scaling by the factors [f]. *)
Definition diagonal_matrix (d : list Q) : Matrix :=
  imap (fun i x => map (fun j => if Nat.eqb i j then x else 0%Q) (seq 0 (length d))) d.

Definition identity_matrix (n : nat) : Matrix := diagonal_matrix (replicate n 1%Q).

(** The product [matrix @ e] when the sizes agree. *)
Definition apply_matrix (matrix : Matrix) (e : Vector) : Vector :=
  map (fun row => dot row e) matrix.

(** [matrix @ e] of torch for a 2-d [matrix] and a 1-d [e]: the sizes must
    agree. *)
Definition matvec (matrix : Matrix) (e : Vector) : Exc Vector :=
  if forallb (fun row => Nat.eqb (length row) (length e)) matrix
  then inr (apply_matrix matrix e)
  else inl (RuntimeError "size mismatch").

(** ** Extent and shape calculator ([monai.transforms.lazy.functional]) *)

(** The corners of the box [[0, d1] x ... x [0, dK]], first axis slowest. *)
Fixpoint corners (dims : list Z) : list Vector :=
  match dims with
  | [] => [[]]
  | d :: ds => map (cons 0%Q) (corners ds) ++ map (cons (inject_Z d)) (corners ds)
  end.

(** Modelled from the spec: [extents_from_shape] is imported from
    [monai.transforms.lazy.functional], which is not among the sources.
    Given a shape [[C, d1, ..., dK]] it returns the homogeneous corner
    coordinates of the box [[0, d1] x ... x [0, dK]]: 2^K points, each a
    (K+1)-vector with a trailing 1. *)
Definition extents_from_shape (shape : Shape) : list Vector :=
  map (fun e => e ++ [1%Q]) (corners (drop 1 shape)).

Definition column (i : nat) (extents : list Vector) : list Q :=
  map (fun e => nth i e 0%Q) extents.

Definition list_max (l : list Q) : Q :=
  match l with
  | [] => 0%Q
  | x :: xs => foldr Qmax x xs
  end.

Definition list_min (l : list Q) : Q :=
  match l with
  | [] => 0%Q
  | x :: xs => foldr Qmin x xs
  end.

(** Modelled from the spec: [shape_from_extents] is imported from
    [monai.transforms.lazy.functional], which is not among the sources.
    Given the original shape and a set of transformed extents it returns
    [[C, d1', ..., dK']] where [di'] is [ceil(max_i - min_i)] over the extents
    along axis [i] and the channel count [C] is kept; it fails when the
    extents do not have the expected dimensionality.  The failure is the
    [ValueError] every check of this code base raises. *)
Definition shape_from_extents (src_shape : Shape) (extents : list Vector) : Exc Shape :=
  match src_shape with
  | [] => inl IndexError
  | c :: dims =>
      let K := length dims in
      if bool_decide (extents <> []) && forallb (fun e => Nat.eqb (length e) (S K)) extents
      then inr (c :: map (fun i => Qceiling (list_max (column i extents) - list_min (column i extents)))
                         (seq 0 K))
      else inl (ValueError "extents do not match the dimensionality of the shape")
  end.

(** Modelled from the spec: [is_matrix_shaped] is imported from
    [monai.transforms.lazy.functional], which is not among the sources.  The
    spec calls the accepted transforms homogeneous (K+1)x(K+1) matrices; the
    call site passes the matrix alone and the message of the error it guards
    names the accepted K: a 2d or a 3d homogeneous matrix, hence 3x3 or
    4x4. *)
Definition is_matrix_shaped (matrix : Matrix) : bool :=
  let n := length matrix in
  (Nat.eqb n 3 || Nat.eqb n 4) && forallb (fun row => Nat.eqb (length row) n) matrix.

Definition transform_shape (input_shape : Shape) (matrix : Matrix) : Exc Shape :=
  if negb (is_matrix_shaped matrix)
  then inl (ValueError "'matrix' must have a valid 2d or 3d homogenous matrix shape")
  else
    let im_extents := extents_from_shape input_shape in
    (im_extents <- mapE (matvec matrix) im_extents ;;
     shape_from_extents input_shape im_extents)%exc.

(** ** Images, pending operations and the store *)

Definition Dtype := string.
Definition loc := positive.

(** What the builders read from a tensor. *)
Record TensorInfo := {
  t_shape : Shape;
  t_dtype : Dtype;
  t_device : string;
}.

(** An image is a plain [torch.Tensor] or a [MetaTensor]; a [MetaTensor] has
    an identity, under which the store keeps its pending operations. *)
Inductive Image :=
| Tensor (t : TensorInfo)
| MetaTensor (l : loc) (t : TensorInfo).

Definition info (img : Image) : TensorInfo :=
  match img with
  | Tensor t => t
  | MetaTensor _ t => t
  end.

Definition shape_of (img : Image) : Shape := t_shape (info img).

(** The transform of a pending operation: a homogeneous matrix or, for the
    elastic deformation, a displacement grid. *)
Inductive Transform :=
| TMatrix (m : Matrix)
| TGrid (g : Matrix).

(** Values stored in the metadata dictionary. *)
Inductive MetaVal :=
| VShape (s : Shape)
| VPy (v : py)
| VPys (l : list py)
| VFloats (l : list Q)
| VInts (l : list Z)
| VFloat (q : Q)
| VOptInt (k : option Z)
| VOptBool (b : option bool)
| VStr (s : string)
| VOptStr (s : option string)
| VField (g : Matrix).

(** [MetaMatrix(transform, metadata)]. *)
Record MetaMatrix := {
  transform : Transform;
  metadata : gmap string MetaVal;
}.

Abbreviation Store := (gmap loc (list MetaMatrix)).

(** [tensor.pending_operations] of the [MetaTensor] at [l]. *)
Definition pending_operations (st : Store) (l : loc) : list MetaMatrix :=
  default [] (st !! l).

(** Code that reads or mutates the store and may raise.  The store of the
    moment of the exception is kept: a mutation before a [raise] persists. *)
Definition M (A : Type) : Type := Store -> Exc A * Store.

Module StoreMonad.
Definition ret {A} (a : A) : M A := fun st => (inr a, st).
Definition bind {A B} (c : M A) (k : A -> M B) : M B :=
  fun st =>
    match c st with
    | (inl e, st') => (inl e, st')
    | (inr a, st') => k a st'
    end.
Definition exc {A} (c : Exc A) : M A := fun st => (c, st).
End StoreMonad.
Import StoreMonad.

Declare Scope store_scope.
Delimit Scope store_scope with M.
Notation "x <- c ;; k" := (StoreMonad.bind c (fun x => k))
  (at level 100, c at next level, right associativity) : store_scope.

(** Modelled from the spec: [push_pending_operation] is a method of
    [MetaTensor], which is not among the sources.  It appends the operation to
    the pending-operation log of the handle. *)
Definition push_pending_operation (l : loc) (op : MetaMatrix) : M () :=
  fun st => (inr (), <[l := pending_operations st l ++ [op]]> st).

(** Modelled from the spec: [convert_to_tensor] is imported from
    [monai.utils], which is not among the sources.  An image handle is a
    tracked handle or a plain value; [track_meta] says which one the caller
    gets.  With tracking a plain tensor is wrapped in a new tracked handle
    with an empty log and a tracked handle is returned as it is; without
    tracking a tracked handle is returned as its plain tensor. *)
Definition convert_to_tensor (data : Image) (track_meta : bool) : M Image :=
  fun st =>
    match data, track_meta with
    | Tensor t, true =>
        let l := fresh (dom st) in (inr (MetaTensor l t), <[l := []]> st)
    | MetaTensor l t, false => (inr (Tensor t), st)
    | _, _ => (inr data, st)
    end.

(** ** Functions of the library that are not among the sources

    [monai.utils], [monai.transforms.utils], [monai.data] and
    [monai.transforms.lazy.functional] are imported by the module and are not
    among the sources.  What the builders call from them is a parameter of
    the embedding; each may raise. *)

Inductive OptionEnum := GridSampleMode | GridSamplePadMode.

Class Lib := {
  (** [get_track_meta()], the global tracking switch *)
  get_track_meta : bool;
  (** [img.peek_pending_shape()] of a [MetaTensor], from its log *)
  peek_pending_shape : TensorInfo -> list MetaMatrix -> Shape;
  (** [img.pixdim] *)
  pixdim_of : Image -> Exc py;
  look_up_option : option string -> OptionEnum -> Exc string;
  get_equivalent_dtype : Dtype -> Dtype;
  ensure_tuple : py -> list py;
  ensure_tuple_rep : py -> Z -> Exc (list py);
  ensure_tuple_size : Shape -> Z -> Z -> Shape;
  fall_back_tuple : py -> list Z -> Exc (list Z);
  (** [img.reshape(shape)] *)
  reshape : Image -> Shape -> Exc Image;
  compatible_identity : Image -> Exc Matrix;
  compatible_flip : Image -> py -> Exc Matrix;
  compatible_rotate : Image -> list py -> Exc Matrix;
  compatible_rotate_90 : Image -> list Z -> option Z -> Exc Matrix;
  compatible_scale : Image -> list Q -> Exc Matrix;
  compatible_translate : Image -> list py -> Exc Matrix;
  apply_align_corners : Matrix -> list Z -> (list Q -> Exc Matrix) -> Exc Matrix;
  (** [apply_transforms(tensor)] and [apply_transforms(tensor, [op])] *)
  apply_transforms : Image -> option (list MetaMatrix) -> M Image;
  (** [create_grid], the [GaussianFilter] and the update of the grid by the
      smoothed offsets, in [elastic_3d] *)
  deformed_grid : list Z -> string -> Q -> Q -> Matrix -> Exc Matrix;
}.

(** ** The dispatcher *)

(** [Union[MetaTensor, Tuple[torch.Tensor, Optional[MetaMatrix]]]] *)
Inductive DispatchResult :=
| RImage (img : Image)
| RPair (img : Image) (op : option MetaMatrix).

Definition lazily_apply_op `{Lib} (tensor : Image) (op : MetaMatrix)
    (lazy_evaluation : option bool) : M DispatchResult :=
  match tensor with
  | MetaTensor l _ =>
      (_ <- push_pending_operation l op ;;
       if is_False lazy_evaluation
       then (result <- apply_transforms tensor None ;; ret (RImage result))
       else ret (RImage tensor))%M
  | Tensor _ =>
      if is_False lazy_evaluation
      then (result <- apply_transforms tensor (Some [op]) ;; ret (RPair result None))%M
      else ret (RPair tensor (Some op))
  end.

(** ** The builders *)

(** The block every builder starts with:
    [input_shape = shape_override; if input_shape is None: ...].
    [probe] is the variable whose log the builder inspects ([img] everywhere
    but in [flip], which inspects [img_]); the last branch reads
    [img_.shape]. *)
Definition resolve_input_shape `{Lib} (shape_override : option Shape)
    (probe img_ : Image) : M Shape :=
  fun st =>
    match shape_override with
    | Some input_shape => (inr input_shape, st)
    | None =>
        match probe with
        | MetaTensor l t =>
            if Nat.ltb 0 (length (pending_operations st l))
            then (inr (peek_pending_shape t (pending_operations st l)), st)
            else (inr (shape_of img_), st)
        | Tensor _ => (inr (shape_of img_), st)
        end
    end.

(** [None if mode is None else look_up_option(mode, supported)] *)
Definition look_up_if_given `{Lib} (mode : option string) (supported : OptionEnum)
    : Exc (option string) :=
  match mode with
  | None => inr None
  | Some _ => (m <- look_up_option mode supported ;; inr (Some m))%exc
  end.

(** [metadata[key] = v] when [v] is not [None]. *)
Definition set_if_given (key : string) (v : option string)
    (metadata : gmap string MetaVal) : gmap string MetaVal :=
  match v with
  | None => metadata
  | Some s => <[key := VStr s]> metadata
  end.

Definition identity_op `{Lib} (img : Image) (mode padding_mode : option string)
    (dtype : option Dtype) (shape_override : option Shape) : M (Image * MetaMatrix) :=
  (img_ <- convert_to_tensor img get_track_meta ;;
   input_shape <- resolve_input_shape shape_override img img_ ;;
   exc (mode_ <- look_up_if_given mode GridSampleMode ;;
        padding_mode_ <- look_up_if_given padding_mode GridSamplePadMode ;;
        let dtype_ := get_equivalent_dtype (default (t_dtype (info img_)) dtype) in
        transform <- compatible_identity img_ ;;
        let metadata := {[ "shape_override" := VShape input_shape ]} in
        let metadata := set_if_given "mode" mode_ metadata in
        let metadata := set_if_given "padding_mode" padding_mode_ metadata in
        let metadata := <["dtype" := VStr dtype_]> metadata in
        inr (img_, {| transform := TMatrix transform; metadata := metadata |}))%exc)%M.

Definition identity `{Lib} (img : Image) (mode padding_mode : option string)
    (dtype : option Dtype) (shape_override : option Shape)
    (lazy_evaluation : option bool) : M DispatchResult :=
  (r <- identity_op img mode padding_mode dtype shape_override ;;
   lazily_apply_op r.1 r.2 lazy_evaluation)%M.

Definition spacing_op `{Lib} (img : Image) (pixdim src_pixdim : py)
    (diagonal : option bool) (mode padding_mode : option string)
    (align_corners : option bool) (dtype : option Dtype)
    (shape_override : option Shape) : M (Image * MetaMatrix) :=
  (img_ <- convert_to_tensor img get_track_meta ;;
   input_shape <- resolve_input_shape shape_override img img_ ;;
   exc (src_pixdim_ <- (if truthy src_pixdim then inr src_pixdim else pixdim_of img_) ;;
        let input_ndim := ndim_of input_shape in
        pixdim_ <- ensure_tuple_rep pixdim input_ndim ;;
        src_pixdim_ <- ensure_tuple_rep src_pixdim_ input_ndim ;;
        if is_True diagonal
        then inl (ValueError "'diagonal' value of True is not currently supported")
        else
          mode_ <- look_up_option mode GridSampleMode ;;
          padding_mode_ <- look_up_option padding_mode GridSamplePadMode ;;
          let dtype_ := get_equivalent_dtype (default (t_dtype (info img)) dtype) in
          zoom_factors <- mapE (fun ij => py_div ij.1 ij.2) (zip src_pixdim_ pixdim_) ;;
          transform <- compatible_scale img_ zoom_factors ;;
          output_shape <- transform_shape input_shape transform ;;
          let metadata : gmap string MetaVal :=
            list_to_map [("pixdim", VPys pixdim_);
                         ("src_pixdim", VPys src_pixdim_);
                         ("diagonal", VOptBool diagonal);
                         ("mode", VStr mode_);
                         ("padding_mode", VStr padding_mode_);
                         ("align_corners", VOptBool align_corners);
                         ("dtype", VStr dtype_);
                         ("shape_override", VShape output_shape)] in
          inr (img_, {| transform := TMatrix transform; metadata := metadata |}))%exc)%M.

Definition spacing `{Lib} (img : Image) (pixdim src_pixdim : py)
    (diagonal : option bool) (mode padding_mode : option string)
    (align_corners : option bool) (dtype : option Dtype)
    (shape_override : option Shape) (lazy_evaluation : option bool) : M DispatchResult :=
  (r <- spacing_op img pixdim src_pixdim diagonal mode padding_mode align_corners dtype
          shape_override ;;
   lazily_apply_op r.1 r.2 lazy_evaluation)%M.

(** [tuple(i for i in range(len(input_shape[1:])))] *)
Definition all_spatial_axes (input_shape : Shape) : py :=
  PyTuple (map (fun i => PyInt (Z.of_nat i)) (seq 0 (length (drop 1 input_shape)))).

Definition flip_op `{Lib} (img : Image) (spatial_axis : py)
    (shape_override : option Shape) : M (Image * MetaMatrix) :=
  (img_ <- convert_to_tensor img get_track_meta ;;
   input_shape <- resolve_input_shape shape_override img_ img_ ;;
   exc (let spatial_axis_ :=
          match spatial_axis with
          | PyNone => all_spatial_axes input_shape
          | _ => spatial_axis
          end in
        transform <- compatible_flip img_ spatial_axis_ ;;
        let im_extents := extents_from_shape input_shape in
        im_extents <- mapE (matvec transform) im_extents ;;
        output_shape <- shape_from_extents input_shape im_extents ;;
        let metadata : gmap string MetaVal :=
          list_to_map [("spatial_axis", VPy spatial_axis_);
                       ("shape_override", VShape output_shape)] in
        inr (img_, {| transform := TMatrix transform; metadata := metadata |}))%exc)%M.

Definition flip `{Lib} (img : Image) (spatial_axis : py)
    (shape_override : option Shape) (lazy_evaluation : option bool) : M DispatchResult :=
  (r <- flip_op img spatial_axis shape_override ;;
   lazily_apply_op r.1 r.2 lazy_evaluation)%M.

(** [max(img_size)] of a tuple of ints. *)
Definition py_max (l : list Z) : Exc Z :=
  match l with
  | [] => inl (ValueError "max() arg is an empty sequence")
  | x :: xs => inr (foldr Z.max x xs)
  end.

(** The two size modes of [resize]: the shape the rest of the builder works
    with, the image whose dtype it reads and the target spatial size. *)
Definition resize_target `{Lib} (img : Image) (spatial_size : py) (size_mode : string)
    (input_shape : Shape) : Exc (Shape * Image * list Z) :=
  let input_ndim := ndim_of input_shape in
  if String.eqb size_mode "all" then
    let output_ndim := Z.of_nat (length (ensure_tuple spatial_size)) in
    (r <- (if (input_ndim <? output_ndim)%Z then
             let input_shape := ensure_tuple_size input_shape (output_ndim + 1) 1 in
             (img <- reshape img input_shape ;; inr (input_shape, img))
           else if (output_ndim <? input_ndim)%Z then
             inl (ValueError
                    "len(spatial_size) must be greater or equal to img spatial dimensions")
           else inr (input_shape, img)) ;;
     spatial_size_ <- fall_back_tuple spatial_size (drop 1 r.1) ;;
     inr (r.1, r.2, spatial_size_))%exc
  else
    let img_size := drop 1 input_shape in
    match as_int spatial_size with
    | None => inl (ValueError "spatial_size must be an int number if size_mode is 'longest'.")
    | Some target =>
        (longest <- py_max img_size ;;
         scale <- int_true_div target longest ;;
         spatial_size_ <- mapE (fun s => product <- int_mul_float s scale ;;
                                         round_float product) img_size ;;
         inr (input_shape, img, spatial_size_))%exc
    end.

Definition resize_op `{Lib} (img : Image) (spatial_size : py) (size_mode : string)
    (mode : option string) (align_corners anti_aliasing : option bool)
    (anti_aliasing_sigma : py) (dtype : option Dtype)
    (shape_override : option Shape) : M (Image * MetaMatrix) :=
  (img_ <- convert_to_tensor img get_track_meta ;;
   input_shape <- resolve_input_shape shape_override img img_ ;;
   exc (r <- resize_target img spatial_size size_mode input_shape ;;
        let input_shape := r.1.1 in
        let img := r.1.2 in
        let spatial_size_ := r.2 in
        mode_ <- look_up_option mode GridSampleMode ;;
        let dtype_ := get_equivalent_dtype (default (t_dtype (info img)) dtype) in
        zoom_factors <- mapE (fun ij => int_true_div ij.1 ij.2)
                             (zip spatial_size_ (drop 1 input_shape)) ;;
        transform <- compatible_scale img_ (map float_value zoom_factors) ;;
        output_shape <- transform_shape input_shape transform ;;
        let metadata : gmap string MetaVal :=
          list_to_map [("spatial_size", VPy spatial_size);
                       ("size_mode", VStr size_mode);
                       ("mode", VStr mode_);
                       ("align_corners", VOptBool align_corners);
                       ("anti_aliasing", VOptBool anti_aliasing);
                       ("anti_aliasing_sigma", VPy anti_aliasing_sigma);
                       ("dtype", VStr dtype_);
                       ("shape_override", VShape output_shape)] in
        inr (img_, {| transform := TMatrix transform; metadata := metadata |}))%exc)%M.

Definition resize `{Lib} (img : Image) (spatial_size : py) (size_mode : string)
    (mode : option string) (align_corners anti_aliasing : option bool)
    (anti_aliasing_sigma : py) (dtype : option Dtype)
    (shape_override : option Shape) (lazy_evaluation : option bool) : M DispatchResult :=
  (r <- resize_op img spatial_size size_mode mode align_corners anti_aliasing
          anti_aliasing_sigma dtype shape_override ;;
   lazily_apply_op r.1 r.2 lazy_evaluation)%M.

Definition rotate_op `{Lib} (img : Image) (angle : py) (keep_size : option bool)
    (mode padding_mode : option string) (align_corners : option bool)
    (dtype : option Dtype) (shape_override : option Shape) : M (Image * MetaMatrix) :=
  (img_ <- convert_to_tensor img get_track_meta ;;
   mode_ <- exc (look_up_option mode GridSampleMode) ;;
   padding_mode_ <- exc (look_up_option padding_mode GridSamplePadMode) ;;
   let dtype_ := get_equivalent_dtype (default (t_dtype (info img)) dtype) in
   input_shape <- resolve_input_shape shape_override img img_ ;;
   exc (let input_ndim := ndim_of input_shape in
        if negb ((input_ndim =? 2)%Z || (input_ndim =? 3)%Z)
        then inl (ValueError "Unsupported image dimension, available options are [2, 3].")
        else
          angle_ <- ensure_tuple_rep angle (if (input_ndim =? 2)%Z then 1 else 3)%Z ;;
          rotate_tx <- compatible_rotate img angle_ ;;
          output_shape <- (if is_False keep_size then inr input_shape
                           else transform_shape input_shape rotate_tx) ;;
          transform <- (if is_True align_corners
                        then apply_align_corners rotate_tx (drop 1 output_shape)
                               (fun scale_factors => compatible_scale img_ scale_factors)
                        else inr rotate_tx) ;;
          let metadata : gmap string MetaVal :=
            list_to_map [("angle", VPy angle);
                         ("keep_size", VOptBool keep_size);
                         ("mode", VStr mode_);
                         ("padding_mode", VStr padding_mode_);
                         ("align_corners", VOptBool align_corners);
                         ("dtype", VStr dtype_);
                         ("shape_override", VShape output_shape)] in
          inr (img_, {| transform := TMatrix transform; metadata := metadata |}))%exc)%M.

Definition rotate `{Lib} (img : Image) (angle : py) (keep_size : option bool)
    (mode padding_mode : option string) (align_corners : option bool)
    (dtype : option Dtype) (shape_override : option Shape)
    (lazy_evaluation : option bool) : M DispatchResult :=
  (r <- rotate_op img angle keep_size mode padding_mode align_corners dtype shape_override ;;
   lazily_apply_op r.1 r.2 lazy_evaluation)%M.

Definition zoom_op `{Lib} (img : Image) (factor : py) (mode padding_mode : option string)
    (align_corners keep_size : option bool) (dtype : option Dtype)
    (shape_override : option Shape) : M (Image * MetaMatrix) :=
  (img_ <- convert_to_tensor img get_track_meta ;;
   input_shape <- resolve_input_shape shape_override img img_ ;;
   exc (let input_ndim := ndim_of input_shape in
        zoom_factors <- ensure_tuple_rep factor input_ndim ;;
        zoom_factors <- mapE (fun f => py_div (PyInt 1) f) zoom_factors ;;
        mode_ <- look_up_option mode GridSampleMode ;;
        padding_mode_ <- look_up_option padding_mode GridSamplePadMode ;;
        let dtype_ := get_equivalent_dtype (default (t_dtype (info img_)) dtype) in
        transform <- compatible_scale img_ zoom_factors ;;
        output_shape <- (if is_False keep_size then inr input_shape
                         else transform_shape input_shape transform) ;;
        r <- (if is_True align_corners
              then
                transform_ <- apply_align_corners transform (drop 1 output_shape)
                                (fun scale_factors => compatible_scale img_ scale_factors) ;;
                output_shape <- transform_shape output_shape transform ;;
                inr (transform_, output_shape)
              else inr (transform, output_shape)) ;;
        let transform_ := r.1 in
        let output_shape := r.2 in
        let metadata : gmap string MetaVal :=
          list_to_map [("factor", VFloats zoom_factors);
                       ("mode", VStr mode_);
                       ("padding_mode", VStr padding_mode_);
                       ("align_corners", VOptBool align_corners);
                       ("keep_size", VOptBool keep_size);
                       ("dtype", VStr dtype_);
                       ("shape_override", VShape output_shape)] in
        inr (img_, {| transform := TMatrix transform_; metadata := metadata |}))%exc)%M.

Definition zoom `{Lib} (img : Image) (factor : py) (mode padding_mode : option string)
    (align_corners keep_size : option bool) (dtype : option Dtype)
    (shape_override : option Shape) (lazy_evaluation : option bool) : M DispatchResult :=
  (r <- zoom_op img factor mode padding_mode align_corners keep_size dtype shape_override ;;
   lazily_apply_op r.1 r.2 lazy_evaluation)%M.

Definition rotate90_op `{Lib} (img : Image) (k : option Z) (spatial_axes : list Z)
    (shape_override : option Shape) : M (Image * MetaMatrix) :=
  if negb (Nat.eqb (length spatial_axes) 2)
  then exc (inl (ValueError "'spatial_axes' must be a tuple of two integers indicating"))
  else
    (img_ <- convert_to_tensor img get_track_meta ;;
     input_shape <- resolve_input_shape shape_override img img_ ;;
     exc (transform <- compatible_rotate_90 img_ spatial_axes k ;;
          let metadata : gmap string MetaVal :=
            list_to_map [("k", VOptInt k);
                         ("spatial_axes", VInts spatial_axes);
                         ("shape_override", VShape input_shape)] in
          inr (img_, {| transform := TMatrix transform; metadata := metadata |}))%exc)%M.

Definition rotate90 `{Lib} (img : Image) (k : option Z) (spatial_axes : list Z)
    (shape_override : option Shape) (lazy_evaluation : option bool) : M DispatchResult :=
  (r <- rotate90_op img k spatial_axes shape_override ;;
   lazily_apply_op r.1 r.2 lazy_evaluation)%M.

(** [img] is a tensor here, so [device_] is [img.device] and the [device]
    argument is not read. *)
Definition elastic_3d_op `{Lib} (img : Image) (sigma magnitude : Q) (offsets : Matrix)
    (spatial_size : py) (mode padding_mode : option string) (device : option string)
    (shape_override : option Shape) : M (Image * MetaMatrix) :=
  (img_ <- convert_to_tensor img get_track_meta ;;
   input_shape <- resolve_input_shape shape_override img img_ ;;
   exc (sp_size <- fall_back_tuple spatial_size (drop 1 (shape_of img)) ;;
        let device_ := t_device (info img) in
        grid <- deformed_grid sp_size device_ sigma magnitude offsets ;;
        let metadata : gmap string MetaVal :=
          list_to_map [("sigma", VFloat sigma);
                       ("magnitude", VFloat magnitude);
                       ("offsets", VField offsets);
                       ("shape_override", VShape input_shape)] in
        let metadata :=
          match spatial_size with
          | PyNone => metadata
          | _ => <["spatial_size" := VPy spatial_size]> metadata
          end in
        let metadata := set_if_given "mode" mode metadata in
        let metadata := set_if_given "padding_mode" padding_mode metadata in
        inr (img_, {| transform := TGrid grid; metadata := metadata |}))%exc)%M.

Definition elastic_3d `{Lib} (img : Image) (sigma magnitude : Q) (offsets : Matrix)
    (spatial_size : py) (mode padding_mode : option string) (device : option string)
    (shape_override : option Shape) (lazy_evaluation : option bool) : M DispatchResult :=
  (r <- elastic_3d_op img sigma magnitude offsets spatial_size mode padding_mode device
          shape_override ;;
   lazily_apply_op r.1 r.2 lazy_evaluation)%M.

Definition translate_op `{Lib} (img : Image) (translation : list py)
    (mode padding_mode : option string) (dtype : option Dtype)
    (shape_override : option Shape) : M (Image * MetaMatrix) :=
  (img_ <- convert_to_tensor img get_track_meta ;;
   input_shape <- resolve_input_shape shape_override img img_ ;;
   exc (let dtype_ := default (t_dtype (info img_)) dtype in
        let input_ndim := ndim_of input_shape in
        if negb (Z.of_nat (length translation) =? input_ndim)%Z
        then inl (ValueError "'translate' length must be equal to 'img' spatial dimensions")
        else
          transform <- compatible_translate img translation ;;
          let metadata : gmap string MetaVal :=
            list_to_map [("translation", VPys translation);
                         ("mode", VOptStr mode);
                         ("padding_mode", VOptStr padding_mode);
                         ("dtype", VStr dtype_);
                         ("shape_override", VShape input_shape)] in
          inr (img_, {| transform := TMatrix transform; metadata := metadata |}))%exc)%M.

Definition translate `{Lib} (img : Image) (translation : list py)
    (mode padding_mode : option string) (dtype : option Dtype)
    (shape_override : option Shape) (lazy_evaluation : option bool) : M DispatchResult :=
  (r <- translate_op img translation mode padding_mode dtype shape_override ;;
   lazily_apply_op r.1 r.2 lazy_evaluation)%M.

(** ** A builder call *)

Inductive BuilderCall :=
| CallIdentity (img : Image) (mode padding_mode : option string) (dtype : option Dtype)
| CallSpacing (img : Image) (pixdim src_pixdim : py) (diagonal : option bool)
    (mode padding_mode : option string) (align_corners : option bool) (dtype : option Dtype)
| CallFlip (img : Image) (spatial_axis : py)
| CallResize (img : Image) (spatial_size : py) (size_mode : string) (mode : option string)
    (align_corners anti_aliasing : option bool) (anti_aliasing_sigma : py)
    (dtype : option Dtype)
| CallRotate (img : Image) (angle : py) (keep_size : option bool)
    (mode padding_mode : option string) (align_corners : option bool) (dtype : option Dtype)
| CallZoom (img : Image) (factor : py) (mode padding_mode : option string)
    (align_corners keep_size : option bool) (dtype : option Dtype)
| CallRotate90 (img : Image) (k : option Z) (spatial_axes : list Z)
| CallElastic3d (img : Image) (sigma magnitude : Q) (offsets : Matrix) (spatial_size : py)
    (mode padding_mode : option string) (device : option string)
| CallTranslate (img : Image) (translation : list py) (mode padding_mode : option string)
    (dtype : option Dtype).

(** The part of a call up to the construction of the [MetaMatrix]. *)
Definition call_op `{Lib} (c : BuilderCall) (shape_override : option Shape)
    : M (Image * MetaMatrix) :=
  match c with
  | CallIdentity img mode padding_mode dtype =>
      identity_op img mode padding_mode dtype shape_override
  | CallSpacing img pixdim src_pixdim diagonal mode padding_mode align_corners dtype =>
      spacing_op img pixdim src_pixdim diagonal mode padding_mode align_corners dtype
        shape_override
  | CallFlip img spatial_axis => flip_op img spatial_axis shape_override
  | CallResize img spatial_size size_mode mode align_corners anti_aliasing
      anti_aliasing_sigma dtype =>
      resize_op img spatial_size size_mode mode align_corners anti_aliasing
        anti_aliasing_sigma dtype shape_override
  | CallRotate img angle keep_size mode padding_mode align_corners dtype =>
      rotate_op img angle keep_size mode padding_mode align_corners dtype shape_override
  | CallZoom img factor mode padding_mode align_corners keep_size dtype =>
      zoom_op img factor mode padding_mode align_corners keep_size dtype shape_override
  | CallRotate90 img k spatial_axes => rotate90_op img k spatial_axes shape_override
  | CallElastic3d img sigma magnitude offsets spatial_size mode padding_mode device =>
      elastic_3d_op img sigma magnitude offsets spatial_size mode padding_mode device
        shape_override
  | CallTranslate img translation mode padding_mode dtype =>
      translate_op img translation mode padding_mode dtype shape_override
  end.

(** The call itself. *)
Definition call `{Lib} (c : BuilderCall) (shape_override : option Shape)
    (lazy_evaluation : option bool) : M DispatchResult :=
  match c with
  | CallIdentity img mode padding_mode dtype =>
      identity img mode padding_mode dtype shape_override lazy_evaluation
  | CallSpacing img pixdim src_pixdim diagonal mode padding_mode align_corners dtype =>
      spacing img pixdim src_pixdim diagonal mode padding_mode align_corners dtype
        shape_override lazy_evaluation
  | CallFlip img spatial_axis => flip img spatial_axis shape_override lazy_evaluation
  | CallResize img spatial_size size_mode mode align_corners anti_aliasing
      anti_aliasing_sigma dtype =>
      resize img spatial_size size_mode mode align_corners anti_aliasing
        anti_aliasing_sigma dtype shape_override lazy_evaluation
  | CallRotate img angle keep_size mode padding_mode align_corners dtype =>
      rotate img angle keep_size mode padding_mode align_corners dtype shape_override
        lazy_evaluation
  | CallZoom img factor mode padding_mode align_corners keep_size dtype =>
      zoom img factor mode padding_mode align_corners keep_size dtype shape_override
        lazy_evaluation
  | CallRotate90 img k spatial_axes =>
      rotate90 img k spatial_axes shape_override lazy_evaluation
  | CallElastic3d img sigma magnitude offsets spatial_size mode padding_mode device =>
      elastic_3d img sigma magnitude offsets spatial_size mode padding_mode device
        shape_override lazy_evaluation
  | CallTranslate img translation mode padding_mode dtype =>
      translate img translation mode padding_mode dtype shape_override lazy_evaluation
  end.

(** The image argument of a call. *)
Definition call_image (c : BuilderCall) : Image :=
  match c with
  | CallIdentity img _ _ _ => img
  | CallSpacing img _ _ _ _ _ _ _ => img
  | CallFlip img _ => img
  | CallResize img _ _ _ _ _ _ _ => img
  | CallRotate img _ _ _ _ _ _ => img
  | CallZoom img _ _ _ _ _ _ => img
  | CallRotate90 img _ _ => img
  | CallElastic3d img _ _ _ _ _ _ _ => img
  | CallTranslate img _ _ _ _ => img
  end.

(** ** The library functions at work

    An instance of [Lib], to run the builders on concrete inputs: the
    documented behaviour of the helpers of [monai.utils], exact matrices for
    the transforms whose entries are rational, and a resampler that only
    reports the shape it is asked to produce. *)

Module Reference.

Definition spatial_dims (img : Image) : nat := length (shape_of img) - 1.

(** The shape recorded by the last pending operation. *)
Definition peek_pending_shape (t : TensorInfo) (log : list MetaMatrix) : Shape :=
  match last log with
  | Some op =>
      match metadata op !! "shape_override" with
      | Some (VShape s) => s
      | _ => t_shape t
      end
  | None => t_shape t
  end.

Definition pixdim_of (img : Image) : Exc py :=
  match img with
  | Tensor _ => inl (AttributeError "pixdim")
  | MetaTensor _ _ => inr (PyTuple (replicate (spatial_dims img) (PyFloat 1)))
  end.

Definition look_up_option (opt : option string) (supported : OptionEnum) : Exc string :=
  let members :=
    match supported with
    | GridSampleMode => ["nearest"; "bilinear"; "bicubic"]
    | GridSamplePadMode => ["zeros"; "border"; "reflection"]
    end in
  match opt with
  | Some s => if bool_decide (s ∈ members) then inr s else inl (ValueError "Unsupported option")
  | None => inl (ValueError "Unsupported option")
  end.

Definition ensure_tuple (v : py) : list py :=
  match v with
  | PyTuple items => items
  | _ => [v]
  end.

Definition ensure_tuple_rep (v : py) (dim : Z) : Exc (list py) :=
  match v with
  | PyTuple items =>
      if (Z.of_nat (length items) =? dim)%Z then inr items
      else inl (ValueError "Sequence must have length dim")
  | _ => inr (replicate (Z.to_nat dim) v)
  end.

Definition ensure_tuple_size (vals : Shape) (dim pad_val : Z) : Shape :=
  take (Z.to_nat dim) (vals ++ replicate (Z.to_nat dim) pad_val).

Definition fall_back_tuple (user_provided : py) (default_ : list Z) : Exc (list Z) :=
  (user <- ensure_tuple_rep user_provided (Z.of_nat (length default_)) ;;
   inr (zip_with (fun u d =>
                    match as_int u with
                    | Some z => if (0 <? z)%Z then z else d
                    | None => d
                    end) user default_))%exc.

Definition reshape (img : Image) (shape : Shape) : Exc Image :=
  if (foldr Z.mul 1 (shape_of img) =? foldr Z.mul 1 shape)%Z
  then
    let t := {| t_shape := shape; t_dtype := t_dtype (info img);
                t_device := t_device (info img) |} in
    inr (match img with Tensor _ => Tensor t | MetaTensor l _ => MetaTensor l t end)
  else inl (RuntimeError "shape is invalid for input size").

Definition axes_of (v : py) : list Z :=
  omap as_int (ensure_tuple v).

Definition compatible_flip (img : Image) (spatial_axis : py) : Exc Matrix :=
  let n := spatial_dims img in
  if forallb (fun a => (0 <=? a)%Z && (a <? Z.of_nat n)%Z) (axes_of spatial_axis)
  then inr (diagonal_matrix
              (map (fun i => if bool_decide (Z.of_nat i ∈ axes_of spatial_axis)
                             then (-1)%Q else 1%Q) (seq 0 n) ++ [1%Q]))
  else inl IndexError.

(** Only the zero rotation has rational entries for every angle unit. *)
Definition compatible_rotate (img : Image) (angle : list py) : Exc Matrix :=
  if forallb (fun a => match as_number a with
                       | Some q => Qeq_bool q 0
                       | None => false
                       end) angle
  then inr (identity_matrix (S (spatial_dims img)))
  else inl (RuntimeError "irrational rotation").

(** [k] quarter turns in the plane of the two axes. *)
Definition compatible_rotate_90 (img : Image) (spatial_axes : list Z) (k : option Z)
    : Exc Matrix :=
  let n := S (spatial_dims img) in
  match spatial_axes with
  | [a; b] =>
      let a := Z.to_nat a in
      let b := Z.to_nat b in
      let turns := (default 1 k mod 4)%Z in
      let c := (if (turns =? 0)%Z then 1 else if (turns =? 2)%Z then -1 else 0)%Q in
      let s := (if (turns =? 1)%Z then 1 else if (turns =? 3)%Z then -1 else 0)%Q in
      inr (map (fun i => map (fun j =>
                  if Nat.eqb i a && Nat.eqb j a then c
                  else if Nat.eqb i a && Nat.eqb j b then (- s)%Q
                  else if Nat.eqb i b && Nat.eqb j a then s
                  else if Nat.eqb i b && Nat.eqb j b then c
                  else if Nat.eqb i j then 1%Q else 0%Q) (seq 0 n)) (seq 0 n))
  | _ => inl (ValueError "two axes")
  end.

Definition compatible_scale (img : Image) (scale_factors : list Q) : Exc Matrix :=
  let n := spatial_dims img in
  inr (diagonal_matrix (take n (scale_factors ++ replicate n 1%Q) ++ [1%Q])).

Definition compatible_translate (img : Image) (translation : list py) : Exc Matrix :=
  let n := spatial_dims img in
  (offsets <- mapE (fun v => match as_number v with
                             | Some q => inr q
                             | None => inl TypeError
                             end) translation ;;
   inr (map (fun i => map (fun j =>
               if Nat.eqb j n then nth i (offsets ++ [1%Q]) 0%Q
               else if Nat.eqb i j then 1%Q else 0%Q) (seq 0 (S n))) (seq 0 (S n))))%exc.

Definition matmul (a b : Matrix) : Matrix :=
  map (fun row => map (fun j => dot row (column j b)) (seq 0 (length row))) a.

Definition apply_align_corners (matrix : Matrix) (spatial_size : list Z)
    (scale : list Q -> Exc Matrix) : Exc Matrix :=
  (s <- scale (map (fun d => if (d =? 0)%Z then 1%Q
                             else ((inject_Z d - 1) / inject_Z d)%Q) spatial_size) ;;
   inr (matmul s matrix))%exc.

(** The shape a list of operations asks for. *)
Definition resampled (img : Image) (ops : list MetaMatrix) : Image :=
  let t := {| t_shape := peek_pending_shape (info img) ops;
              t_dtype := t_dtype (info img); t_device := t_device (info img) |} in
  match img with
  | Tensor _ => Tensor t
  | MetaTensor l _ => MetaTensor l t
  end.

Definition apply_transforms (tensor : Image) (ops : option (list MetaMatrix)) : M Image :=
  fun st =>
    match tensor, ops with
    | MetaTensor l _, _ =>
        (inr (resampled tensor (pending_operations st l ++ default [] ops)), <[l := []]> st)
    | Tensor _, Some ops => (inr (resampled tensor ops), st)
    | Tensor _, None => (inr tensor, st)
    end.

Definition deformed_grid (sp_size : list Z) (device : string) (sigma magnitude : Q)
    (offsets : Matrix) : Exc Matrix :=
  inr (map (map (Qmult magnitude)) offsets).

(** A tensor of the given shape. *)
Definition float_tensor (shape : Shape) : TensorInfo :=
  {| t_shape := shape; t_dtype := "float32"; t_device := "cpu" |}.

Definition lib (track_meta : bool) : Lib :=
  Build_Lib track_meta peek_pending_shape pixdim_of look_up_option (fun dtype => dtype)
    ensure_tuple ensure_tuple_rep ensure_tuple_size fall_back_tuple reshape
    (fun img => inr (identity_matrix (S (spatial_dims img))))
    compatible_flip compatible_rotate compatible_rotate_90 compatible_scale
    compatible_translate apply_align_corners apply_transforms deformed_grid.

(** The store after a deferred [resize] to 5 x 5 of the tracked 10 x 10 image
    at identity 1. *)
Definition resized_store : Store :=
  (@resize (lib true) (MetaTensor 1%positive (float_tensor [1; 10; 10]%Z))
     (PyTuple [PyInt 5; PyInt 5]) "all" (Some "bilinear") None None PyNone None None None
     {[ 1%positive := [] ]}).2.

End Reference.

(** ** Reading a pending operation *)

(** [op.metadata["shape_override"]] *)
Definition shape_override_of (op : MetaMatrix) : option Shape :=
  match metadata op !! "shape_override" with
  | Some (VShape s) => Some s
  | _ => None
  end.

(** The operation a call hands to the dispatcher, when it gets that far. *)
Definition built_op {A} (r : Exc (A * MetaMatrix) * Store) : option MetaMatrix :=
  match r.1 with
  | inr (_, op) => Some op
  | inl _ => None
  end.

(** A channel-first shape [[C, d1, ..., dK]]: at least the channel entry, and
    no negative entry. *)
Definition is_shape (shape : Shape) : bool :=
  negb (Nat.eqb (length shape) 0) && forallb (fun d => (0 <=? d)%Z) shape.

(** The specification's condition on the matrix of [transform_shape]: a
    (K+1)x(K+1) matrix for the K of [input_shape], that is one row and one
    column per entry of [input_shape]. *)
Definition homogeneous_for (input_shape : Shape) (matrix : Matrix) : bool :=
  Nat.eqb (length matrix) (length input_shape)
  && forallb (fun row => Nat.eqb (length row) (length input_shape)) matrix.

(** The specification's resolution of the input shape of a call on [img]: an
    explicit override; else, for a tracked handle with a non-empty log, the
    shape its pending operations predict; else the current shape of the
    image. *)
Definition input_shape_of `{Lib} (shape_override : option Shape) (img : Image)
    (st : Store) : Shape :=
  match shape_override with
  | Some s => s
  | None =>
      match img with
      | MetaTensor l t =>
          if Nat.ltb 0 (length (pending_operations st l))
          then peek_pending_shape t (pending_operations st l)
          else t_shape t
      | Tensor t => t_shape t
      end
  end.

(** The specification's [apply_now] flag of the dispatcher: the builders pass
    [lazy_evaluation], and the operation is applied at once when it is
    [False]. *)
Definition apply_now (lazy_evaluation : option bool) : bool := is_False lazy_evaluation.

(** The specification's contract of [transform_shape]: a matrix that is not
    a (K+1)x(K+1) matrix for the K of [input_shape] is refused with the
    [ValueError] of the check; any other matrix is applied to every corner
    extent and the shape of the transformed extents is returned. *)
Definition transform_shape_contract (input_shape : Shape) (matrix : Matrix) : Prop :=
  if homogeneous_for input_shape matrix
  then transform_shape input_shape matrix
       = shape_from_extents input_shape
           (map (apply_matrix matrix) (extents_from_shape input_shape))
  else exists msg, transform_shape input_shape matrix = inl (ValueError msg).
(** The builders whose record carries the input shape as it was resolved:
    [identity], [rotate90], [elastic_3d] and [translate] store [input_shape]
    under ["shape_override"]; the others store a computed [output_shape]. *)
Definition records_input_shape (c : BuilderCall) : bool :=
  match c with
  | CallIdentity _ _ _ _ => true
  | CallRotate90 _ _ _ => true
  | CallElastic3d _ _ _ _ _ _ _ _ => true
  | CallTranslate _ _ _ _ _ => true
  | _ => false
  end.

(** The store after [push_pending_operation] of [op] on the handle [l]. *)
Definition pushed (st : Store) (l : loc) (op : MetaMatrix) : Store :=
  <[l := pending_operations st l ++ [op]]> st.

(** A number that is zero, as the divisor of a true division. *)
Definition is_zero (v : py) : bool :=
  match as_number v with
  | Some q => Qeq_bool q 0
  | None => false
  end.

(** The axes [flip] works with: all the spatial axes when [spatial_axis] is
    [None]. *)
Definition flip_axes (spatial_axis : py) (input_shape : Shape) : py :=
  match spatial_axis with
  | PyNone => all_spatial_axes input_shape
  | _ => spatial_axis
  end.

(** A computation that leaves the store as it found it. *)
Definition readonly {A} (m : M A) : Prop := forall st, (m st).2 = st.




(** * Properties *)

(** ** Maximum and minimum of a list of rationals *)

Lemma list_max_upper (l : list Q) (x : Q) : x ∈ l -> (x <= list_max l)%Q.
Proof.
  destruct l as [|a l]; [intros H; inversion H|].
  simpl. revert x. induction l as [|b l IH]; intros x Hx; simpl.
  - apply list_elem_of_singleton in Hx. subst. apply Qle_refl.
  - apply elem_of_cons in Hx as [->|Hx].
    + eapply Qle_trans; [|apply Q.le_max_r]. apply IH. left.
    + apply elem_of_cons in Hx as [->|Hx].
      * apply Q.le_max_l.
      * eapply Qle_trans; [|apply Q.le_max_r]. apply IH. right. exact Hx.
Qed.

Lemma list_max_least (l : list Q) (hi : Q) :
  l <> [] -> (forall x, x ∈ l -> (x <= hi)%Q) -> (list_max l <= hi)%Q.
Proof.
  destruct l as [|a l]; [congruence|]. intros _. simpl.
  induction l as [|b l IH]; intros Hall; simpl.
  - apply Hall. left.
  - apply Q.max_lub.
    + apply Hall. right. left.
    + apply IH. intros x Hx. apply Hall.
      apply elem_of_cons in Hx as [->|Hx]; [left | right; right; exact Hx].
Qed.

Lemma list_min_lower (l : list Q) (x : Q) : x ∈ l -> (list_min l <= x)%Q.
Proof.
  destruct l as [|a l]; [intros H; inversion H|].
  simpl. revert x. induction l as [|b l IH]; intros x Hx; simpl.
  - apply list_elem_of_singleton in Hx. subst. apply Qle_refl.
  - apply elem_of_cons in Hx as [->|Hx].
    + eapply Qle_trans; [apply Q.le_min_r|]. apply IH. left.
    + apply elem_of_cons in Hx as [->|Hx].
      * apply Q.le_min_l.
      * eapply Qle_trans; [apply Q.le_min_r|]. apply IH. right. exact Hx.
Qed.

Lemma list_min_greatest (l : list Q) (lo : Q) :
  l <> [] -> (forall x, x ∈ l -> (lo <= x)%Q) -> (lo <= list_min l)%Q.
Proof.
  destruct l as [|a l]; [congruence|]. intros _. simpl.
  induction l as [|b l IH]; intros Hall; simpl.
  - apply Hall. left.
  - apply Q.min_glb.
    + apply Hall. right. left.
    + apply IH. intros x Hx. apply Hall.
      apply elem_of_cons in Hx as [->|Hx]; [left | right; right; exact Hx].
Qed.

(** The extent of a list of values that all lie between [lo] and [hi] and
    reach both. *)
Lemma list_extent (l : list Q) (lo hi : Q) :
  (forall x, x ∈ l -> (lo <= x <= hi)%Q) ->
  (exists x, x ∈ l /\ (x == lo)%Q) ->
  (exists x, x ∈ l /\ (x == hi)%Q) ->
  (list_max l - list_min l == hi - lo)%Q.
Proof.
  intros Hall (a & Ha & Hlo) (b & Hb & Hhi).
  assert (Hne : l <> []) by (intros ->; inversion Ha).
  assert (Hmax : (list_max l == hi)%Q).
  { apply Qle_antisym.
    - apply list_max_least; [exact Hne|]. intros x Hx. apply Hall, Hx.
    - rewrite <- Hhi. apply list_max_upper, Hb. }
  assert (Hmin : (list_min l == lo)%Q).
  { apply Qle_antisym.
    - rewrite <- Hlo. apply list_min_lower, Ha.
    - apply list_min_greatest; [exact Hne|]. intros x Hx. apply Hall, Hx. }
  rewrite Hmax, Hmin. reflexivity.
Qed.

(** ** Corner extents *)

Lemma corners_nonempty (dims : list Z) : corners dims <> [].
Proof.
  induction dims as [|d ds IH]; simpl; [discriminate|].
  destruct (corners ds); [congruence | discriminate].
Qed.

Lemma corners_length (dims : list Z) (e : Vector) :
  e ∈ corners dims -> length e = length dims.
Proof.
  revert e. induction dims as [|d ds IH]; simpl; intros e He.
  - apply list_elem_of_singleton in He. subst. reflexivity.
  - apply elem_of_app in He as [He|He];
      apply list_elem_of_fmap in He as (e' & -> & He'); simpl; f_equal; apply IH, He'.
Qed.

Lemma extents_length (shape : Shape) (e : Vector) :
  e ∈ extents_from_shape shape -> length e = S (length (drop 1 shape)).
Proof.
  unfold extents_from_shape. intros He.
  apply list_elem_of_fmap in He as (e' & -> & He').
  rewrite length_app, (corners_length _ _ He'). simpl. lia.
Qed.

Lemma extents_nonempty (shape : Shape) : extents_from_shape shape <> [].
Proof.
  unfold extents_from_shape. intros Hnil.
  apply fmap_nil_inv in Hnil. exact (corners_nonempty _ Hnil).
Qed.

Lemma column_cons_0 (a : Q) (C : list Vector) :
  column 0 (map (cons a) C) = map (fun _ => a) C.
Proof. unfold column. rewrite map_map. reflexivity. Qed.

Lemma column_cons_S (i : nat) (a : Q) (C : list Vector) :
  column (S i) (map (cons a) C) = column i C.
Proof. unfold column. rewrite map_map. reflexivity. Qed.

Lemma column_app (i : nat) (C1 C2 : list Vector) :
  column i (C1 ++ C2) = column i C1 ++ column i C2.
Proof. unfold column. apply map_app. Qed.

Lemma elem_of_const_map {A} (a x : Q) (C : list A) :
  x ∈ map (fun _ => a) C <-> x = a /\ C <> [].
Proof.
  split.
  - intros Hx. apply list_elem_of_fmap in Hx as (y & -> & Hy).
    split; [reflexivity|]. intros ->. inversion Hy.
  - intros [-> HC]. destruct C as [|y C]; [congruence|]. simpl. left.
Qed.

(** Along axis [i] the corners of the box take the two values [0] and
    [d_i]. *)
Lemma column_corners (dims : list Z) (i : nat) (x : Q) :
  i < length dims ->
  x ∈ column i (corners dims) <-> x = 0%Q \/ x = inject_Z (nth i dims 0%Z).
Proof.
  revert i. induction dims as [|d ds IH]; intros i Hi; simpl in Hi; [lia|].
  simpl corners. rewrite column_app, elem_of_app.
  destruct i as [|i].
  - rewrite !column_cons_0, !elem_of_const_map. simpl.
    pose proof (corners_nonempty ds). tauto.
  - rewrite !column_cons_S. simpl. rewrite (IH i) by lia. tauto.
Qed.

Lemma column_extents (shape : Shape) (i : nat) :
  i < length (drop 1 shape) ->
  column i (extents_from_shape shape) = column i (corners (drop 1 shape)).
Proof.
  intros Hi. unfold extents_from_shape, column. rewrite map_map.
  apply map_ext_in. intros e He. apply list_elem_of_In in He.
  apply app_nth1. rewrite (corners_length _ _ He). exact Hi.
Qed.

Lemma map_nth_seq (l : list Z) (f : nat -> Z) :
  (forall i, i < length l -> f i = nth i l 0%Z) ->
  map f (seq 0 (length l)) = l.
Proof.
  intros Hf. apply nth_ext with (d := 0%Z) (d' := 0%Z).
  - rewrite length_map, length_seq. reflexivity.
  - intros n Hn. rewrite length_map, length_seq in Hn.
    rewrite (nth_indep _ 0%Z (f 0)) by (rewrite length_map, length_seq; exact Hn).
    rewrite map_nth, seq_nth by exact Hn. apply Hf, Hn.
Qed.

Lemma is_shape_inv (shape : Shape) :
  is_shape shape = true ->
  exists c dims, shape = c :: dims /\ Forall (fun d => (0 <= d)%Z) dims.
Proof.
  unfold is_shape. destruct shape as [|c dims]; [discriminate|].
  simpl. intros H. exists c, dims. split; [reflexivity|].
  apply andb_prop in H as [_ H].
  apply List.Forall_forall. intros d Hd. apply Z.leb_le.
  exact (proj1 (forallb_forall _ _) H d Hd).
Qed.

Lemma forallb_elem_of {A} (f : A -> bool) (l : list A) :
  (forall x, x ∈ l -> f x = true) -> forallb f l = true.
Proof.
  intros H. apply forallb_forall. intros x Hx. apply H, list_elem_of_In, Hx.
Qed.

(** ** C9: the shape round trip *)

(** C9. For every shape [S] (channel first, no negative extent) the corner
    extents of [S] given by [extents_from_shape], converted back with
    [shape_from_extents], are [S] exactly. *)
Theorem shape_round_trip (S : Shape) :
  is_shape S = true ->
  shape_from_extents S (extents_from_shape S) = inr S.
Proof.
  intros HS. apply is_shape_inv in HS as (c & dims & -> & Hpos).
  unfold shape_from_extents.
  rewrite bool_decide_true by apply extents_nonempty.
  rewrite forallb_elem_of.
  2:{ intros e He. apply Nat.eqb_eq. rewrite (extents_length _ _ He). reflexivity. }
  simpl andb. cbv iota. do 2 f_equal.
  apply map_nth_seq. intros i Hi.
  rewrite column_extents by exact Hi.
  change (drop 1 (c :: dims)) with dims.
  assert (Hd : (0 <= nth i dims 0)%Z).
  { rewrite List.Forall_forall in Hpos. apply Hpos, nth_In, Hi. }
  rewrite (Qceiling_comp _ (inject_Z (nth i dims 0%Z) - 0)).
  - unfold Qminus. rewrite (Qceiling_comp _ (inject_Z (nth i dims 0%Z))) by ring.
    apply Qceiling_Z.
  - apply list_extent.
    + intros x Hx. apply (column_corners dims i x Hi) in Hx as [->| ->].
      * split; [apply Qle_refl|]. change 0%Q with (inject_Z 0). rewrite <- Zle_Qle. exact Hd.
      * split; [|apply Qle_refl]. change 0%Q with (inject_Z 0). rewrite <- Zle_Qle. exact Hd.
    + exists 0%Q. split; [|reflexivity]. apply column_corners; [exact Hi|]. left. reflexivity.
    + exists (inject_Z (nth i dims 0%Z)). split; [|reflexivity].
      apply column_corners; [exact Hi|]. right. reflexivity.
Qed.

Lemma shape_round_trip_witness :
  is_shape [3; 10; 40; 7]%Z = true /\
  shape_from_extents [3; 10; 40; 7]%Z (extents_from_shape [3; 10; 40; 7]%Z)
  = inr [3; 10; 40; 7]%Z.
Proof. split; [reflexivity | apply shape_round_trip; reflexivity]. Defined.

(** ** C8: [transform_shape] *)

Lemma mapE_total {A B} (f : A -> Exc B) (g : A -> B) (l : list A) :
  (forall x, x ∈ l -> f x = inr (g x)) -> mapE f l = inr (map g l).
Proof.
  induction l as [|x l IH]; intros Hf; simpl; [reflexivity|].
  rewrite (Hf x) by left. rewrite IH; [reflexivity|].
  intros y Hy. apply Hf. right. exact Hy.
Qed.

Lemma mapE_head_raises {A B} (f : A -> Exc B) (e : exn) (x : A) (l : list A) :
  f x = inl e -> mapE f (x :: l) = inl e.
Proof. intros Hf. simpl. rewrite Hf. reflexivity. Qed.

Lemma is_matrix_shaped_inv (matrix : Matrix) :
  is_matrix_shaped matrix = true ->
  (length matrix = 3 \/ length matrix = 4) /\
  forall row, row ∈ matrix -> length row = length matrix.
Proof.
  unfold is_matrix_shaped. intros H. apply andb_prop in H as [Hn Hrows]. split.
  - apply orb_prop in Hn as [Hn|Hn]; apply Nat.eqb_eq in Hn; auto.
  - intros row Hrow. apply Nat.eqb_eq.
    exact (proj1 (forallb_forall _ _) Hrows row (proj1 (list_elem_of_In _ _) Hrow)).
Qed.

Lemma matvec_sized (matrix : Matrix) (e : Vector) :
  (forall row, row ∈ matrix -> length row = length e) ->
  matvec matrix e = inr (apply_matrix matrix e).
Proof.
  intros H. unfold matvec. rewrite forallb_elem_of; [reflexivity|].
  intros row Hrow. apply Nat.eqb_eq, H, Hrow.
Qed.

Lemma matvec_mismatch (matrix : Matrix) (e : Vector) (row : Vector) :
  row ∈ matrix -> length row <> length e ->
  matvec matrix e = inl (RuntimeError "size mismatch").
Proof.
  intros Hrow Hlen. unfold matvec.
  destruct (forallb _ matrix) eqn:Hall; [|reflexivity].
  exfalso. apply Hlen, Nat.eqb_eq.
  exact (proj1 (forallb_forall _ _) Hall row (proj1 (list_elem_of_In _ _) Hrow)).
Qed.

Lemma extent_length_shape (shape : Shape) (e : Vector) :
  shape <> [] -> e ∈ extents_from_shape shape -> length e = length shape.
Proof.
  intros Hne He. rewrite (extents_length _ _ He).
  destruct shape; [congruence|]. simpl. reflexivity.
Qed.

(** What [transform_shape] does, by the size of the matrix. *)
Lemma transform_shape_by_size (input_shape : Shape) (matrix : Matrix) :
  transform_shape input_shape matrix =
    if negb (is_matrix_shaped matrix)
    then inl (ValueError "'matrix' must have a valid 2d or 3d homogenous matrix shape")
    else if Nat.eqb (length matrix) (length input_shape)
    then shape_from_extents input_shape
           (map (apply_matrix matrix) (extents_from_shape input_shape))
    else inl (RuntimeError "size mismatch").
Proof.
  unfold transform_shape.
  destruct (is_matrix_shaped matrix) eqn:Hm; simpl negb; cbv iota; [|reflexivity].
  apply is_matrix_shaped_inv in Hm as [Hn Hrows].
  destruct (Nat.eqb (length matrix) (length input_shape)) eqn:Hlen.
  - apply Nat.eqb_eq in Hlen.
    assert (Hne : input_shape <> []) by (intros ->; simpl in Hlen; lia).
    rewrite (mapE_total _ (apply_matrix matrix)); [reflexivity|].
    intros e He. apply matvec_sized. intros row Hrow.
    rewrite (Hrows row Hrow), (extent_length_shape _ _ Hne He). exact Hlen.
  - apply Nat.eqb_neq in Hlen.
    destruct (extents_from_shape input_shape) as [|e es] eqn:Hext.
    { exfalso. exact (extents_nonempty _ Hext). }
    destruct matrix as [|row rows]; [simpl in Hn; lia|].
    rewrite (mapE_head_raises _ (RuntimeError "size mismatch")); [reflexivity|].
    apply (matvec_mismatch _ _ row); [left|].
    rewrite (Hrows row) by left.
    assert (He : e ∈ extents_from_shape input_shape) by (rewrite Hext; left).
    rewrite (extents_length _ _ He).
    destruct input_shape as [|c dims].
    + change (length (drop 1 (@nil Z))) with 0. destruct Hn as [Hn|Hn]; rewrite Hn; lia.
    + change (drop 1 (c :: dims)) with dims. exact Hlen.
Qed.

(** C8, as the code has it.  [transform_shape] raises the [ValueError] of its
    check exactly when the matrix is not 3x3 or 4x4, whatever [input_shape]
    is.  A 3x3 or 4x4 matrix with one row per entry of [input_shape] is
    applied to every corner extent and the shape of the transformed extents
    is returned; for a 3x3 or 4x4 matrix of another size the product with the
    first extent raises the [RuntimeError] of torch. *)
Theorem transform_shape_cases (input_shape : Shape) (matrix : Matrix) :
  transform_shape input_shape matrix =
    if negb (is_matrix_shaped matrix)
    then inl (ValueError "'matrix' must have a valid 2d or 3d homogenous matrix shape")
    else if Nat.eqb (length matrix) (length input_shape)
    then shape_from_extents input_shape
           (map (apply_matrix matrix) (extents_from_shape input_shape))
    else inl (RuntimeError "size mismatch").
Proof. apply transform_shape_by_size. Qed.

(** The shape is defined whenever the matrix passes both size conditions. *)
Lemma transform_shape_defined (input_shape : Shape) (matrix : Matrix) :
  is_matrix_shaped matrix = true ->
  length matrix = length input_shape ->
  exists c dims dims',
    input_shape = c :: dims /\ length dims' = length dims /\
    transform_shape input_shape matrix = inr (c :: dims').
Proof.
  intros Hm Hlen. rewrite transform_shape_by_size, Hm.
  apply Nat.eqb_eq in Hlen as Hlen'. rewrite Hlen'. simpl negb. cbv iota.
  apply is_matrix_shaped_inv in Hm as [Hn Hrows].
  destruct input_shape as [|c dims]; [simpl in Hlen; lia|].
  unfold shape_from_extents.
  rewrite bool_decide_true.
  2:{ intros Hnil. apply fmap_nil_inv in Hnil. exact (extents_nonempty _ Hnil). }
  rewrite forallb_elem_of.
  2:{ intros v Hv. apply list_elem_of_fmap in Hv as (e & -> & He).
      apply Nat.eqb_eq. unfold apply_matrix. rewrite length_map. exact Hlen. }
  simpl andb. cbv iota. eexists c, dims, _. split; [reflexivity|]. split; [|reflexivity].
  rewrite length_map, length_seq. reflexivity.
Qed.

(** C8, as the specification states it, fails: the 2x2 identity is a valid
    homogeneous matrix for the one spatial dimension of the shape [(1, 10)],
    the shape of the transformed extents is [(1, 10)], and [transform_shape]
    raises. *)
Lemma transform_shape_contract_fails :
  ~ transform_shape_contract [1; 10]%Z (identity_matrix 2).
Proof. unfold transform_shape_contract. vm_compute. discriminate. Qed.

(** ** C2: the dispatcher on a plain tensor *)

(** C2. On a plain tensor the dispatcher with [apply_now] false returns the
    tensor it was given together with the unapplied record, and touches no
    log; with [apply_now] true it returns what [apply_transforms] makes of the
    tensor and the record alone, together with no leftover record. *)
Theorem lazily_apply_op_plain `{Lib} (t : TensorInfo) (op : MetaMatrix)
    (lazy_evaluation : option bool) (st : Store) :
  lazily_apply_op (Tensor t) op lazy_evaluation st =
    if apply_now lazy_evaluation
    then match apply_transforms (Tensor t) (Some [op]) st with
         | (inr result, st') => (inr (RPair result None), st')
         | (inl e, st') => (inl e, st')
         end
    else (inr (RPair (Tensor t) (Some op)), st).
Proof.
  unfold lazily_apply_op, apply_now.
  destruct (is_False lazy_evaluation); [|reflexivity].
  unfold bind, ret. destruct (apply_transforms _ _ st) as [[e|result] st']; reflexivity.
Qed.

(** ** The first steps of a builder *)

Section Builders.
Context `{L : Lib}.

(** [convert_to_tensor] never raises, keeps shape, dtype and device, and
    leaves alone every log that exists and the log of its argument. *)
Lemma convert_to_tensor_spec (img : Image) (track_meta : bool) (st : Store) :
  exists img_ st1,
    convert_to_tensor img track_meta st = (inr img_, st1) /\
    info img_ = info img /\
    (forall l, l ∈ dom st \/ (exists t, img = MetaTensor l t) ->
               pending_operations st1 l = pending_operations st l).
Proof.
  destruct img as [t|l0 t], track_meta; simpl;
    eexists _, _; (split; [reflexivity|]); (split; [reflexivity|]);
    intros l Hl; try reflexivity.
  destruct Hl as [Hl|[t' Ht']]; [|discriminate].
  unfold pending_operations. rewrite lookup_insert_ne; [reflexivity|].
  intros <-. exact (is_fresh (dom st) Hl).
Qed.

(** With tracking, or on a plain tensor, the converted image has the pending
    operations of the image itself. *)
Lemma convert_to_tensor_tracked (img : Image) (track_meta : bool) (st : Store)
    (img_ : Image) (st1 : Store) :
  convert_to_tensor img track_meta st = (inr img_, st1) ->
  track_meta = true \/ (exists t, img = Tensor t) ->
  forall shape_override, input_shape_of shape_override img_ st1 = input_shape_of shape_override img st.
Proof.
  intros Hconv Hcase shape_override.
  destruct img as [t|l0 t], track_meta; simpl in Hconv; inversion Hconv; subst;
    try reflexivity.
  - destruct shape_override; simpl; [reflexivity|].
    unfold pending_operations. rewrite lookup_insert_eq. reflexivity.
  - destruct Hcase as [?|[t' ?]]; discriminate.
Qed.

(** The builders that inspect [img] resolve the input shape as the
    specification says. *)
Lemma resolve_converted (img : Image) (track_meta : bool) (st : Store)
    (img_ : Image) (st1 : Store) (shape_override : option Shape) :
  convert_to_tensor img track_meta st = (inr img_, st1) ->
  resolve_input_shape shape_override img img_ st1
  = (inr (input_shape_of shape_override img st), st1).
Proof.
  intros Hconv.
  destruct (convert_to_tensor_spec img track_meta st) as (i & s & Hc & Hinfo & Hframe).
  rewrite Hconv in Hc. inversion Hc; subst i s. clear Hc.
  unfold resolve_input_shape, input_shape_of, shape_of. rewrite Hinfo.
  destruct shape_override as [s|]; [reflexivity|].
  destruct img as [t|l t]; [reflexivity|].
  rewrite (Hframe l) by (right; eauto). simpl.
  destruct (Nat.ltb _ _); reflexivity.
Qed.

(** [flip] inspects the converted image. *)
Lemma resolve_flip (img_ : Image) (st1 : Store) (shape_override : option Shape) :
  resolve_input_shape shape_override img_ img_ st1
  = (inr (input_shape_of shape_override img_ st1), st1).
Proof.
  unfold resolve_input_shape, input_shape_of, shape_of.
  destruct shape_override as [s|]; [reflexivity|].
  destruct img_ as [t|l t]; [reflexivity|]. simpl.
  destruct (Nat.ltb _ _); reflexivity.
Qed.

End Builders.

(** Runs a builder up to the resolved input shape. *)
Ltac start_builder img st :=
  let img_ := fresh "img_" in
  let st1 := fresh "st1" in
  let Hconv := fresh "Hconv" in
  let Hinfo := fresh "Hinfo" in
  let Hframe := fresh "Hframe" in
  destruct (convert_to_tensor_spec img get_track_meta st)
    as (img_ & st1 & Hconv & Hinfo & Hframe);
  unfold bind at 1; rewrite Hconv.

Section Shapes.
Context `{L : Lib}.

(** C5. Whenever [rotate90] builds a pending operation its [shape_override]
    is the resolved input shape, whatever the extents of the two rotated
    axes are. *)
Theorem rotate90_shape_override (img : Image) (k : option Z) (spatial_axes : list Z)
    (shape_override : option Shape) (st : Store)
    (img_ : Image) (op : MetaMatrix) (st' : Store) :
  rotate90_op img k spatial_axes shape_override st = (inr (img_, op), st') ->
  shape_override_of op = Some (input_shape_of shape_override img st).
Proof.
  unfold rotate90_op.
  destruct (negb _); [discriminate|].
  start_builder img st.
  unfold bind. rewrite (resolve_converted _ _ _ _ _ _ Hconv).
  unfold exc, ExcMonad.bind.
  destruct (compatible_rotate_90 _ _ _) as [e|transform]; [discriminate|].
  intros H. inversion H; subst. reflexivity.
Qed.

End Shapes.

(** ** C6: parameter validation *)

Section Validation.
Context `{L : Lib}.

Lemma translate_length_mismatch (img : Image) (translation : list py)
    (mode padding_mode : option string) (dtype : option Dtype)
    (shape_override : option Shape) (lazy_evaluation : option bool) (st : Store) :
  Z.of_nat (length translation) <> ndim_of (input_shape_of shape_override img st) ->
  exists st',
    translate img translation mode padding_mode dtype shape_override lazy_evaluation st
    = (inl (ValueError "'translate' length must be equal to 'img' spatial dimensions"), st').
Proof.
  intros Hlen. unfold translate, translate_op.
  unfold bind at 1. start_builder img st.
  unfold bind. rewrite (resolve_converted _ _ _ _ _ _ Hconv). unfold exc.
  apply Z.eqb_neq in Hlen. rewrite Hlen. simpl. eauto.
Qed.

Lemma rotate_unsupported_dimension (img : Image) (angle : py) (keep_size : option bool)
    (mode padding_mode : option string) (align_corners : option bool)
    (dtype : option Dtype) (shape_override : option Shape)
    (lazy_evaluation : option bool) (st : Store) :
  ndim_of (input_shape_of shape_override img st) <> 2%Z ->
  ndim_of (input_shape_of shape_override img st) <> 3%Z ->
  exists e st',
    rotate img angle keep_size mode padding_mode align_corners dtype shape_override
      lazy_evaluation st = (inl e, st') /\
    (e = ValueError "Unsupported image dimension, available options are [2, 3]."
     \/ look_up_option mode GridSampleMode = inl e
     \/ look_up_option padding_mode GridSamplePadMode = inl e).
Proof.
  intros H2 H3. unfold rotate, rotate_op.
  unfold bind at 1. start_builder img st.
  unfold bind, exc.
  destruct (look_up_option mode GridSampleMode) as [e|mode_]; [eauto 6|].
  destruct (look_up_option padding_mode GridSamplePadMode) as [e|padding_mode_]; [eauto 6|].
  rewrite (resolve_converted _ _ _ _ _ _ Hconv).
  apply Z.eqb_neq in H2, H3. rewrite H2, H3. simpl. eauto 6.
Qed.

Lemma resize_too_few_dimensions (img : Image) (spatial_size : py)
    (mode : option string) (align_corners anti_aliasing : option bool)
    (anti_aliasing_sigma : py) (dtype : option Dtype)
    (shape_override : option Shape) (lazy_evaluation : option bool) (st : Store) :
  (Z.of_nat (length (ensure_tuple spatial_size))
   < ndim_of (input_shape_of shape_override img st))%Z ->
  exists st',
    resize img spatial_size "all" mode align_corners anti_aliasing anti_aliasing_sigma
      dtype shape_override lazy_evaluation st
    = (inl (ValueError
              "len(spatial_size) must be greater or equal to img spatial dimensions"), st').
Proof.
  intros Hlen. unfold resize, resize_op.
  unfold bind at 1. start_builder img st.
  unfold bind. rewrite (resolve_converted _ _ _ _ _ _ Hconv). unfold exc.
  unfold resize_target. simpl String.eqb. cbv iota.
  rewrite (proj2 (Z.ltb_ge _ _)) by lia.
  rewrite (proj2 (Z.ltb_lt _ _)) by lia.
  simpl. eauto.
Qed.

(** C6. [translate] with a translation vector whose length differs from the
    spatial dimensionality of the resolved input shape raises the [ValueError]
    of its check.  [rotate] on an input whose spatial dimensionality is neither
    2 nor 3 raises: the [ValueError] of its check, unless [look_up_option]
    refused the mode or the padding mode first.  [resize] in "all" mode with
    fewer target dimensions than the input has spatial dimensions raises the
    [ValueError] of its check.  ([ValueError] is what this module raises where
    the specification says ConfigurationError.) *)
Theorem parameter_validation :
  (forall (img : Image) (translation : list py) (mode padding_mode : option string)
          (dtype : option Dtype) (shape_override : option Shape)
          (lazy_evaluation : option bool) (st : Store),
      Z.of_nat (length translation) <> ndim_of (input_shape_of shape_override img st) ->
      exists st',
        translate img translation mode padding_mode dtype shape_override lazy_evaluation st
        = (inl (ValueError "'translate' length must be equal to 'img' spatial dimensions"),
           st'))
  /\
  (forall (img : Image) (angle : py) (keep_size : option bool)
          (mode padding_mode : option string) (align_corners : option bool)
          (dtype : option Dtype) (shape_override : option Shape)
          (lazy_evaluation : option bool) (st : Store),
      ndim_of (input_shape_of shape_override img st) <> 2%Z ->
      ndim_of (input_shape_of shape_override img st) <> 3%Z ->
      exists e st',
        rotate img angle keep_size mode padding_mode align_corners dtype shape_override
          lazy_evaluation st = (inl e, st') /\
        (e = ValueError "Unsupported image dimension, available options are [2, 3]."
         \/ look_up_option mode GridSampleMode = inl e
         \/ look_up_option padding_mode GridSamplePadMode = inl e))
  /\
  (forall (img : Image) (spatial_size : py) (mode : option string)
          (align_corners anti_aliasing : option bool) (anti_aliasing_sigma : py)
          (dtype : option Dtype) (shape_override : option Shape)
          (lazy_evaluation : option bool) (st : Store),
      (Z.of_nat (length (ensure_tuple spatial_size))
       < ndim_of (input_shape_of shape_override img st))%Z ->
      exists st',
        resize img spatial_size "all" mode align_corners anti_aliasing anti_aliasing_sigma
          dtype shape_override lazy_evaluation st
        = (inl (ValueError
                  "len(spatial_size) must be greater or equal to img spatial dimensions"),
           st')).
Proof.
  split; [|split].
  - apply translate_length_mismatch.
  - apply rotate_unsupported_dimension.
  - apply resize_too_few_dimensions.
Qed.

End Validation.

(** ** C4: a failed call leaves the logs alone *)

Section Atomicity.
Context `{L : Lib}.

Lemma readonly_exc {A} (c : Exc A) : readonly (exc c).
Proof. intros st. reflexivity. Qed.

Lemma readonly_bind {A B} (m : M A) (k : A -> M B) :
  readonly m -> (forall a, readonly (k a)) -> readonly (bind m k).
Proof.
  intros Hm Hk st. unfold bind. specialize (Hm st).
  destruct (m st) as [[e|a] st1]; simpl in *; subst; [reflexivity|]. apply Hk.
Qed.

Lemma readonly_resolve (shape_override : option Shape) (probe img_ : Image) :
  readonly (resolve_input_shape shape_override probe img_).
Proof.
  intros st. unfold resolve_input_shape.
  destruct shape_override; [reflexivity|].
  destruct probe; [reflexivity|]. destruct (Nat.ltb _ _); reflexivity.
Qed.

(** After the conversion of the image a builder only reads. *)
Lemma after_convert_readonly {A} (img : Image) (k : Image -> M A) (st : Store)
    (r : Exc A) (st' : Store) :
  (forall img_, readonly (k img_)) ->
  bind (convert_to_tensor img get_track_meta) k st = (r, st') ->
  forall l, l ∈ dom st \/ (exists t, img = MetaTensor l t) ->
            pending_operations st' l = pending_operations st l.
Proof.
  intros Hk Hrun.
  destruct (convert_to_tensor_spec img get_track_meta st)
    as (img_ & st1 & Hconv & _ & Hframe).
  unfold bind in Hrun. rewrite Hconv in Hrun.
  specialize (Hk img_ st1). rewrite Hrun in Hk. simpl in Hk. subst st'.
  exact Hframe.
Qed.

Lemma call_op_frame (c : BuilderCall) (shape_override : option Shape) (st : Store)
    (r : Exc (Image * MetaMatrix)) (st' : Store) :
  call_op c shape_override st = (r, st') ->
  forall l, l ∈ dom st \/ (exists t, call_image c = MetaTensor l t) ->
            pending_operations st' l = pending_operations st l.
Proof.
  destruct c; simpl call_op; simpl call_image;
    unfold identity_op, spacing_op, flip_op, resize_op, rotate_op, zoom_op, rotate90_op,
      elastic_3d_op, translate_op;
    try (destruct (negb (Nat.eqb (length spatial_axes) 2));
         [intros H; inversion H; subst; reflexivity|]);
    apply after_convert_readonly; intros img_;
    repeat first [ apply readonly_exc
                 | apply readonly_resolve
                 | apply readonly_bind; [|intros ?] ].
Qed.

Lemma call_unfold (c : BuilderCall) (shape_override : option Shape)
    (lazy_evaluation : option bool) :
  call c shape_override lazy_evaluation
  = bind (call_op c shape_override) (fun r => lazily_apply_op r.1 r.2 lazy_evaluation).
Proof. destruct c; reflexivity. Qed.

(** C4. A builder call that raises before its [MetaMatrix] is constructed
    (any of its validations or helper calls) raises that exception as a
    whole, and every pending-operation log that existed before the call, the
    log of the image among them, is as it was. *)
Theorem failed_call_is_atomic (c : BuilderCall) (shape_override : option Shape)
    (lazy_evaluation : option bool) (st : Store) (e : exn) (st' : Store) :
  call_op c shape_override st = (inl e, st') ->
  call c shape_override lazy_evaluation st = (inl e, st') /\
  forall l, l ∈ dom st \/ (exists t, call_image c = MetaTensor l t) ->
            pending_operations st' l = pending_operations st l.
Proof.
  intros Hop. split.
  - rewrite call_unfold. unfold bind. rewrite Hop. reflexivity.
  - exact (call_op_frame _ _ _ _ _ Hop).
Qed.

(** The dispatcher cannot raise when the operation is deferred: a deferred
    call that raises raised in its validation. *)
Lemma deferred_failure_is_validation (c : BuilderCall) (shape_override : option Shape)
    (lazy_evaluation : option bool) (st : Store) (e : exn) (st' : Store) :
  apply_now lazy_evaluation = false ->
  call c shape_override lazy_evaluation st = (inl e, st') ->
  call_op c shape_override st = (inl e, st').
Proof.
  unfold apply_now. intros Hlazy. rewrite call_unfold. unfold bind.
  destruct (call_op c shape_override st) as [[e1|[img_ op]] st1]; [intros H; inversion H; reflexivity|].
  unfold lazily_apply_op. simpl. rewrite Hlazy.
  destruct img_; unfold bind, push_pending_operation, ret; discriminate.
Qed.

End Atomicity.

(** ** The theorems above at concrete calls *)

Lemma rotate90_shape_override_witness :
  exists img_ op st',
    @rotate90_op (Reference.lib true) (Tensor (Reference.float_tensor [1; 10; 20]%Z))
      (Some 1%Z) [0; 1]%Z None ∅ = (inr (img_, op), st') /\
    shape_override_of op = Some [1; 10; 20]%Z.
Proof.
  eexists _, _, _. split; [vm_compute; reflexivity|].
  eapply (@rotate90_shape_override (Reference.lib true)
            (Tensor (Reference.float_tensor [1; 10; 20]%Z)) (Some 1%Z) [0; 1]%Z None ∅).
  vm_compute. reflexivity.
Defined.

Lemma parameter_validation_witness :
  (exists st',
      @translate (Reference.lib true) (Tensor (Reference.float_tensor [1; 10; 10; 10]%Z))
        [PyFloat 1; PyFloat 2] None None None None None ∅
      = (inl (ValueError "'translate' length must be equal to 'img' spatial dimensions"),
         st'))
  /\
  (exists e st',
      @rotate (Reference.lib true) (Tensor (Reference.float_tensor [1; 10]%Z))
        (PyFloat 0) (Some true) (Some "bilinear") (Some "border") None None None None ∅
      = (inl e, st') /\
      (e = ValueError "Unsupported image dimension, available options are [2, 3]."
       \/ Reference.look_up_option (Some "bilinear") GridSampleMode = inl e
       \/ Reference.look_up_option (Some "border") GridSamplePadMode = inl e))
  /\
  (exists st',
      @resize (Reference.lib true) (Tensor (Reference.float_tensor [1; 10; 10; 10]%Z))
        (PyTuple [PyInt 5; PyInt 5]) "all" (Some "bilinear") None None PyNone None None
        None ∅
      = (inl (ValueError
                "len(spatial_size) must be greater or equal to img spatial dimensions"),
         st')).
Proof.
  destruct (@parameter_validation (Reference.lib true)) as (Htranslate & Hrotate & Hresize).
  split; [|split].
  - apply Htranslate. vm_compute. discriminate.
  - apply Hrotate; vm_compute; discriminate.
  - apply Hresize. vm_compute. reflexivity.
Defined.

Lemma failed_call_is_atomic_witness :
  let img := MetaTensor 1%positive (Reference.float_tensor [1; 10; 10]%Z) in
  let c := CallTranslate img [PyFloat 1] None None None in
  let e := ValueError "'translate' length must be equal to 'img' spatial dimensions" in
  @call_op (Reference.lib true) c None Reference.resized_store
  = (inl e, Reference.resized_store) /\
  @call (Reference.lib true) c None (Some false) Reference.resized_store
  = (inl e, Reference.resized_store) /\
  forall l, l ∈ dom Reference.resized_store \/ (exists t, call_image c = MetaTensor l t) ->
            pending_operations Reference.resized_store l
            = pending_operations Reference.resized_store l.
Proof.
  intros img c e.
  assert (Hop : @call_op (Reference.lib true) c None Reference.resized_store
                = (inl e, Reference.resized_store)) by (vm_compute; reflexivity).
  split; [exact Hop|].
  exact (@failed_call_is_atomic (Reference.lib true) c None (Some false)
           Reference.resized_store e Reference.resized_store Hop).
Defined.

(** ** C1: [keep_size] in [zoom] and [rotate] *)

Section KeepSize.
Context `{L : Lib}.

(** [translate] records the resolved input shape. *)
Lemma translate_shape_override (img : Image) (translation : list py)
    (mode padding_mode : option string) (dtype : option Dtype)
    (shape_override : option Shape) (st : Store)
    (img_ : Image) (op : MetaMatrix) (st' : Store) :
  translate_op img translation mode padding_mode dtype shape_override st
  = (inr (img_, op), st') ->
  shape_override_of op = Some (input_shape_of shape_override img st).
Proof.
  unfold translate_op. start_builder img st.
  unfold bind. rewrite (resolve_converted _ _ _ _ _ _ Hconv). unfold exc.
  destruct (negb _); [discriminate|]. unfold ExcMonad.bind.
  destruct (compatible_translate _ _) as [e|transform]; [discriminate|].
  intros H. inversion H; subst. reflexivity.
Qed.


End KeepSize.

(** C1, at a failing call.  [zoom] by the factor 2 of a 10 x 10 image with
    [keep_size = True] records the shape [(1, 5, 5)] and not the input shape
    [(1, 10, 10)]; with [keep_size = False] it records the input shape. *)
Theorem zoom_keep_size_changes_shape :
  let img := Tensor (Reference.float_tensor [1; 10; 10]%Z) in
  @input_shape_of (Reference.lib true) None img ∅ = [1; 10; 10]%Z /\
  built_op (@zoom_op (Reference.lib true) img (PyInt 2) (Some "bilinear") (Some "border")
              None (Some true) None None ∅) ≫= shape_override_of
  = Some [1; 5; 5]%Z /\
  built_op (@zoom_op (Reference.lib true) img (PyInt 2) (Some "bilinear") (Some "border")
              None (Some false) None None ∅) ≫= shape_override_of
  = Some [1; 10; 10]%Z.
Proof. vm_compute. repeat split. Qed.

(** ** C3: the resolution of the input shape *)

(** C3, at a failing call.  With tracking switched off, [flip] of a tracked
    10 x 10 image whose log holds a resize to 5 x 5 works from the shape
    [(1, 10, 10)] of the tensor, where the pending operations predict
    [(1, 5, 5)] and [translate], on the same image and store, records
    [(1, 5, 5)]. *)
Theorem flip_ignores_pending_shape :
  let img := MetaTensor 1%positive (Reference.float_tensor [1; 10; 10]%Z) in
  let st := Reference.resized_store in
  length (pending_operations st 1%positive) = 1 /\
  @input_shape_of (Reference.lib false) None img st = [1; 5; 5]%Z /\
  built_op (@translate_op (Reference.lib false) img [PyFloat 1; PyFloat 1] None None None
              None st) ≫= shape_override_of
  = Some [1; 5; 5]%Z /\
  (@resolve_input_shape (Reference.lib false) None (Tensor (info img)) (Tensor (info img))
     st).1 = inr [1; 10; 10]%Z /\
  built_op (@flip_op (Reference.lib false) img PyNone None st) ≫= shape_override_of
  = Some [1; 10; 10]%Z.
Proof. vm_compute. repeat split. Qed.

(** ** C10: [flip] without axes *)

Section FlipDefault.
Context `{L : Lib}.






End FlipDefault.


(** ** C7: [resize] to a longest side *)







Lemma shape_from_extents_sized (c : Z) (dims : list Z) (extents : list Vector) :
  extents <> [] ->
  (forall e, e ∈ extents -> length e = S (length dims)) ->
  shape_from_extents (c :: dims) extents
  = inr (c :: map (fun i => Qceiling (list_max (column i extents)
                                      - list_min (column i extents)))
                  (seq 0 (length dims))).
Proof.
  intros Hne Hlen. unfold shape_from_extents.
  rewrite bool_decide_true by exact Hne.
  rewrite forallb_elem_of by (intros e He; apply Nat.eqb_eq, Hlen, He).
  reflexivity.
Qed.

Section Longest.
Context `{L : Lib}.



End Longest.




(** * Further properties of the module *)

(** ** The store after a push *)

Lemma pushed_pending (st : Store) (l : loc) (op : MetaMatrix) :
  pending_operations (pushed st l op) l = pending_operations st l ++ [op].
Proof. unfold pushed, pending_operations at 1. rewrite lookup_insert_eq. reflexivity. Qed.

Lemma pushed_other (st : Store) (l l' : loc) (op : MetaMatrix) :
  l' <> l -> pushed st l op !! l' = st !! l'.
Proof. intros Hne. unfold pushed. apply lookup_insert_ne. congruence. Qed.

(** ** What a builder hands to the dispatcher *)

(** Splits a run of a builder into its cases. *)
Ltac crunch H :=
  repeat first
    [ discriminate H
    | match type of H with
      | context [match ?x with _ => _ end] => destruct x eqn:?
      end ];
  inversion H; subst; clear H.

Section Handover.
Context `{L : Lib}.

(** The image of the record is the converted image, in the store the
    conversion left. *)
Lemma call_op_image (c : BuilderCall) (shape_override : option Shape) (st : Store)
    (img_ : Image) (op : MetaMatrix) (st1 : Store) :
  call_op c shape_override st = (inr (img_, op), st1) ->
  convert_to_tensor (call_image c) get_track_meta st = (inr img_, st1).
Proof.
  intros Hop.
  destruct c; simpl call_op in Hop; simpl call_image;
    unfold identity_op, spacing_op, flip_op, resize_op, rotate_op, zoom_op, rotate90_op,
      elastic_3d_op, translate_op in Hop;
    try (destruct (negb (Nat.eqb (length spatial_axes) 2)); [discriminate Hop|]);
    (destruct (convert_to_tensor_spec img get_track_meta st)
      as (i & s1 & Hconv & _ & _));
    rewrite Hconv; unfold bind at 1 in Hop; rewrite Hconv in Hop;
    unfold bind, exc in Hop;
    try rewrite (resolve_converted _ _ _ _ _ _ Hconv) in Hop;
    try rewrite resolve_flip in Hop;
    unfold ExcMonad.bind, look_up_if_given, ExcMonad.bind in Hop;
    crunch Hop; reflexivity.
Qed.

End Handover.

Section Deferred.
Context `{L : Lib}.

(** X2. With tracking on, a deferred builder call on a tracked image that
    gets to its record returns the image itself and appends exactly that
    record at the end of the log of the image; no other log changes. *)
Theorem deferred_call_appends (c : BuilderCall) (shape_override : option Shape)
    (lazy_evaluation : option bool) (st : Store)
    (l : loc) (t : TensorInfo) (img_ : Image) (op : MetaMatrix) (st1 : Store) :
  get_track_meta = true ->
  call_image c = MetaTensor l t ->
  apply_now lazy_evaluation = false ->
  call_op c shape_override st = (inr (img_, op), st1) ->
  call c shape_override lazy_evaluation st
  = (inr (RImage (MetaTensor l t)), pushed st l op) /\
  pending_operations (pushed st l op) l = pending_operations st l ++ [op] /\
  (forall l', l' <> l -> pending_operations (pushed st l op) l' = pending_operations st l').
Proof.
  intros Htrack Himg Hlazy Hop.
  pose proof (call_op_image _ _ _ _ _ _ Hop) as Hconv.
  rewrite Himg, Htrack in Hconv. simpl in Hconv. inversion Hconv; subst img_ st1.
  split; [|split].
  - rewrite call_unfold. unfold bind at 1. rewrite Hop. simpl fst. simpl snd.
    unfold apply_now in Hlazy.
    unfold lazily_apply_op, bind, push_pending_operation, ret. rewrite Hlazy. reflexivity.
  - apply pushed_pending.
  - intros l' Hne. unfold pending_operations. rewrite pushed_other by exact Hne. reflexivity.
Qed.

(** X3. With tracking off, a deferred builder call that gets to its record
    returns the pair of the plain tensor of the image and the record, and
    leaves the store as it was: also for a tracked image, whose log is not
    extended. *)
Theorem untracked_call_returns_pair (c : BuilderCall) (shape_override : option Shape)
    (lazy_evaluation : option bool) (st : Store)
    (img_ : Image) (op : MetaMatrix) (st1 : Store) :
  get_track_meta = false ->
  apply_now lazy_evaluation = false ->
  call_op c shape_override st = (inr (img_, op), st1) ->
  call c shape_override lazy_evaluation st
  = (inr (RPair (Tensor (info (call_image c))) (Some op)), st).
Proof.
  intros Htrack Hlazy Hop.
  pose proof (call_op_image _ _ _ _ _ _ Hop) as Hconv.
  rewrite Htrack in Hconv.
  assert (Hres : img_ = Tensor (info (call_image c)) /\ st1 = st).
  { destruct (call_image c); simpl in Hconv; inversion Hconv; split; reflexivity. }
  destruct Hres as [-> ->].
  rewrite call_unfold. unfold bind at 1. rewrite Hop. simpl fst. simpl snd.
  unfold apply_now in Hlazy. unfold lazily_apply_op. rewrite Hlazy. reflexivity.
Qed.

(** X4. [identity], [rotate90], [elastic_3d] and [translate] record the
    resolved input shape as the shape of their output. *)
Theorem input_shape_recorded (c : BuilderCall) (shape_override : option Shape)
    (st : Store) (img_ : Image) (op : MetaMatrix) (st1 : Store) :
  records_input_shape c = true ->
  call_op c shape_override st = (inr (img_, op), st1) ->
  shape_override_of op = Some (input_shape_of shape_override (call_image c) st).
Proof.
  intros Hkind Hop.
  destruct c; try discriminate Hkind; simpl call_op in Hop; simpl call_image;
    unfold identity_op, rotate90_op, elastic_3d_op, translate_op in Hop;
    try (destruct (negb (Nat.eqb (length spatial_axes) 2)); [discriminate Hop|]);
    (destruct (convert_to_tensor_spec img get_track_meta st)
      as (i & s1 & Hconv & _ & _));
    unfold bind at 1 in Hop; rewrite Hconv in Hop;
    unfold bind, exc in Hop;
    rewrite (resolve_converted _ _ _ _ _ _ Hconv) in Hop;
    unfold ExcMonad.bind, look_up_if_given, ExcMonad.bind in Hop;
    crunch Hop; try reflexivity;
    repeat match goal with
           | |- context [set_if_given _ ?v _] => is_var v; destruct v
           end; reflexivity.
Qed.

End Deferred.

(** ** Shapes under [transform_shape] *)

Lemma list_min_le_max (l : list Q) : l <> [] -> (list_min l <= list_max l)%Q.
Proof.
  destruct l as [|x l]; [congruence|]. intros _.
  apply Qle_trans with x; [apply list_min_lower | apply list_max_upper]; left.
Qed.

(** X5. Whatever the matrix, a shape that [transform_shape] returns has the
    channel entry and the number of entries of the input shape, and no
    negative extent. *)
Theorem transform_shape_is_shape (input_shape : Shape) (matrix : Matrix)
    (output_shape : Shape) :
  transform_shape input_shape matrix = inr output_shape ->
  length output_shape = length input_shape /\
  head output_shape = head input_shape /\
  Forall (fun d => (0 <= d)%Z) (drop 1 output_shape).
Proof.
  rewrite transform_shape_by_size.
  destruct (negb (is_matrix_shaped matrix)) eqn:Hm; [discriminate|].
  destruct (Nat.eqb (length matrix) (length input_shape)) eqn:Hlen; [|discriminate].
  apply Nat.eqb_eq in Hlen. apply negb_false_iff in Hm.
  apply is_matrix_shaped_inv in Hm as [Hn Hrows].
  destruct input_shape as [|c dims]; [simpl in Hlen; lia|].
  set (extents := map (apply_matrix matrix) (extents_from_shape (c :: dims))).
  assert (Hne : extents <> []).
  { intros Hnil. apply fmap_nil_inv in Hnil. exact (extents_nonempty _ Hnil). }
  rewrite shape_from_extents_sized; [|exact Hne|].
  2:{ intros v Hv. apply list_elem_of_fmap in Hv as (e & -> & He).
      unfold apply_matrix. rewrite length_map. exact Hlen. }
  intros Hout. inversion Hout; subst output_shape. clear Hout.
  split; [simpl; rewrite length_map, length_seq; reflexivity|].
  split; [reflexivity|].
  change (drop 1 (c :: ?l)) with l. apply Forall_fmap, Forall_forall.
  intros i _. simpl.
  change 0%Z with (Qceiling 0). apply Qceiling_resp_le.
  unfold Qminus. rewrite <- Qle_minus_iff. apply list_min_le_max.
  unfold column. intros Hnil. apply map_eq_nil in Hnil. exact (Hne Hnil).
Qed.

Lemma transform_shape_is_shape_witness :
  transform_shape [1; 10; 20]%Z (diagonal_matrix [-1; 1 # 3; 1]%Q) = inr [1; 10; 7]%Z /\
  length [1; 10; 7]%Z = length [1; 10; 20]%Z /\
  head [1; 10; 7]%Z = head [1; 10; 20]%Z /\
  Forall (fun d => (0 <= d)%Z) (drop 1 [1; 10; 7]%Z).
Proof.
  assert (H : transform_shape [1; 10; 20]%Z (diagonal_matrix [-1; 1 # 3; 1]%Q)
              = inr [1; 10; 7]%Z) by (vm_compute; reflexivity).
  split; [exact H|]. exact (transform_shape_is_shape _ _ _ H).
Defined.

(** The extent of values that are all [0] or [v], and reach both. *)
Lemma extent_two_values (l : list Q) (v : Q) :
  List.Forall (fun x => (x == 0 \/ x == v)%Q) l ->
  List.Exists (fun x => (x == 0)%Q) l ->
  List.Exists (fun x => (x == v)%Q) l ->
  Qceiling (list_max l - list_min l) = Qceiling (Qabs v).
Proof.
  intros Hall H0 Hv. apply Qceiling_comp.
  rewrite List.Forall_forall in Hall.
  apply List.Exists_exists in H0 as (x0 & Hx0 & Hx0').
  apply List.Exists_exists in Hv as (xv & Hxv & Hxv').
  apply list_elem_of_In in Hx0, Hxv.
  destruct (Qlt_le_dec v 0) as [Hneg|Hpos].
  - rewrite (list_extent l v 0).
    + rewrite Qabs_neg by (apply Qlt_le_weak, Hneg). ring.
    + intros x Hx. destruct (Hall x (proj1 (list_elem_of_In _ _) Hx)) as [-> | ->];
        split; first [apply Qle_refl | apply Qlt_le_weak, Hneg].
    + eauto.
    + eauto.
  - rewrite (list_extent l 0 v).
    + rewrite Qabs_pos by exact Hpos. ring.
    + intros x Hx. destruct (Hall x (proj1 (list_elem_of_In _ _) Hx)) as [-> | ->];
        split; first [apply Qle_refl | exact Hpos].
    + eauto.
    + eauto.
Qed.

Ltac diagonal_extent :=
  apply extent_two_values;
  [ repeat (apply List.Forall_cons; [first [left; ring | right; ring]|]);
    apply List.Forall_nil
  | repeat first [ apply List.Exists_cons_hd; ring | apply List.Exists_cons_tl ]
  | repeat first [ apply List.Exists_cons_hd; ring | apply List.Exists_cons_tl ] ].

Lemma diagonal_extents_2d (c d1 d2 : Z) (f1 f2 : Q) :
  shape_from_extents [c; d1; d2]
    (map (apply_matrix (diagonal_matrix [f1; f2; 1%Q])) (extents_from_shape [c; d1; d2]))
  = inr [c; Qceiling (Qabs (f1 * inject_Z d1)); Qceiling (Qabs (f2 * inject_Z d2))].
Proof.
  rewrite shape_from_extents_sized.
  2:{ discriminate. }
  2:{ intros e He. apply list_elem_of_fmap in He as (v & -> & Hv). reflexivity. }
  cbv -[Qplus Qmult Qdiv inject_Z Qceiling list_max list_min Qopp Qminus Qabs].
  f_equal. f_equal. f_equal; [|f_equal]; diagonal_extent.
Qed.

Lemma diagonal_extents_3d (c d1 d2 d3 : Z) (f1 f2 f3 : Q) :
  shape_from_extents [c; d1; d2; d3]
    (map (apply_matrix (diagonal_matrix [f1; f2; f3; 1%Q]))
         (extents_from_shape [c; d1; d2; d3]))
  = inr [c; Qceiling (Qabs (f1 * inject_Z d1)); Qceiling (Qabs (f2 * inject_Z d2));
         Qceiling (Qabs (f3 * inject_Z d3))].
Proof.
  rewrite shape_from_extents_sized.
  2:{ discriminate. }
  2:{ intros e He. apply list_elem_of_fmap in He as (v & -> & Hv). reflexivity. }
  cbv -[Qplus Qmult Qdiv inject_Z Qceiling list_max list_min Qopp Qminus Qabs].
  f_equal. f_equal. f_equal; [|f_equal; [|f_equal]]; diagonal_extent.
Qed.

(** ** [flip] *)

Lemma mapE_matvec_inv (matrix : Matrix) (l r : list Vector) :
  mapE (matvec matrix) l = inr r -> r = map (apply_matrix matrix) l.
Proof.
  revert r. induction l as [|e l IH]; intros r; simpl.
  - intros H. inversion H. reflexivity.
  - unfold matvec at 1. destruct (forallb _ matrix); [|discriminate].
    destruct (mapE (matvec matrix) l) as [?|r']; [discriminate|].
    intros H. inversion H. rewrite (IH r' eq_refl). reflexivity.
Qed.

Lemma diagonal_rows (d : list Q) (row : Vector) :
  row ∈ diagonal_matrix d -> length row = length d.
Proof.
  unfold diagonal_matrix. intros Hrow.
  apply list_elem_of_lookup in Hrow as [i Hi].
  rewrite list_lookup_imap in Hi. destruct (d !! i); simpl in Hi; inversion Hi.
  rewrite length_map, length_seq. reflexivity.
Qed.

Lemma ceiling_abs_sign (s : Q) (d : Z) :
  s = 1%Q \/ s = (-1)%Q -> (0 <= d)%Z -> Qceiling (Qabs (s * inject_Z d)) = d.
Proof.
  intros Hs Hd.
  assert (Hq : (0 <= inject_Z d)%Q).
  { change 0%Q with (inject_Z 0). rewrite <- Zle_Qle. exact Hd. }
  rewrite (Qceiling_comp _ (inject_Z d)); [apply Qceiling_Z|].
  destruct Hs as [-> | ->].
  - rewrite Qmult_1_l. apply Qabs_pos, Hq.
  - assert (E : (-1 * inject_Z d == - inject_Z d)%Q) by ring.
    rewrite E, Qabs_opp. apply Qabs_pos, Hq.
Qed.

Section Flip.
Context `{L : Lib}.

(** X7. With tracking on, or on a plain tensor, the shape [flip] records is
    the shape of the extents of the resolved input shape under the matrix
    [compatible_flip] gave for the converted image. *)
Theorem flip_shape_from_extents (img : Image) (spatial_axis : py)
    (shape_override : option Shape) (st : Store)
    (img_ : Image) (op : MetaMatrix) (st1 : Store) :
  get_track_meta = true \/ (exists t, img = Tensor t) ->
  flip_op img spatial_axis shape_override st = (inr (img_, op), st1) ->
  exists flip_tx output_shape,
    compatible_flip img_
      (flip_axes spatial_axis (input_shape_of shape_override img st)) = inr flip_tx /\
    transform op = TMatrix flip_tx /\
    shape_from_extents (input_shape_of shape_override img st)
      (map (apply_matrix flip_tx)
           (extents_from_shape (input_shape_of shape_override img st)))
    = inr output_shape /\
    shape_override_of op = Some output_shape.
Proof.
  intros Htracked Hop. unfold flip_op in Hop.
  destruct (convert_to_tensor_spec img get_track_meta st) as (i & s1 & Hconv & _ & _).
  unfold bind at 1 in Hop. rewrite Hconv in Hop.
  unfold bind in Hop. rewrite resolve_flip in Hop.
  rewrite (convert_to_tensor_tracked _ _ _ _ _ Hconv Htracked) in Hop.
  unfold exc, ExcMonad.bind in Hop. fold (flip_axes spatial_axis) in Hop.
  destruct (compatible_flip i _) as [?|flip_tx] eqn:Hflip; [discriminate|].
  destruct (mapE (matvec flip_tx) _) as [?|extents] eqn:Hext; [discriminate|].
  destruct (shape_from_extents _ extents) as [?|output_shape] eqn:Hshape; [discriminate|].
  inversion Hop; subst. clear Hop.
  exists flip_tx, output_shape. split; [exact Hflip|]. split; [reflexivity|].
  split; [|reflexivity].
  rewrite <- (mapE_matvec_inv _ _ _ Hext). exact Hshape.
Qed.

(** X8. [flip] of a 2-d or 3-d input keeps the shape: when [compatible_flip]
    answers with a diagonal matrix of entries 1 and -1, the shape recorded is
    the resolved input shape. *)
Theorem flip_preserves_shape (img : Image) (spatial_axis : py)
    (shape_override : option Shape) (st : Store) (img_ : Image) (st1 : Store)
    (c : Z) (dims : list Z) (signs : list Q) :
  convert_to_tensor img get_track_meta st = (inr img_, st1) ->
  input_shape_of shape_override img_ st1 = c :: dims ->
  length dims = 2 \/ length dims = 3 ->
  Forall (fun d => (0 <= d)%Z) dims ->
  length signs = length dims ->
  Forall (fun s => s = 1%Q \/ s = (-1)%Q) signs ->
  compatible_flip img_ (flip_axes spatial_axis (c :: dims))
  = inr (diagonal_matrix (signs ++ [1%Q])) ->
  exists op,
    flip_op img spatial_axis shape_override st = (inr (img_, op), st1) /\
    shape_override_of op = Some (c :: dims).
Proof.
  intros Hconv Hshape Hrank Hdims Hlen Hsigns Hflip.
  unfold flip_op. unfold bind at 1. rewrite Hconv.
  unfold bind. rewrite resolve_flip, Hshape.
  unfold exc, ExcMonad.bind. fold (flip_axes spatial_axis (c :: dims)). rewrite Hflip.
  rewrite (mapE_total _ (apply_matrix (diagonal_matrix (signs ++ [1%Q])))).
  2:{ intros e He. apply matvec_sized. intros row Hrow.
      rewrite (diagonal_rows _ _ Hrow), length_app, Hlen.
      assert (Hne : c :: dims <> []) by discriminate.
      rewrite (extent_length_shape _ _ Hne He). simpl. lia. }
  destruct Hrank as [Hrank|Hrank].
  - destruct dims as [|d1 [|d2 [|? ?]]]; try discriminate.
    destruct signs as [|s1 [|s2 [|? ?]]]; try discriminate.
    apply Forall_cons in Hdims as [Hd1 Hdims]. apply Forall_cons in Hdims as [Hd2 _].
    apply Forall_cons in Hsigns as [Hs1 Hsigns]. apply Forall_cons in Hsigns as [Hs2 _].
    simpl app. rewrite diagonal_extents_2d.
    rewrite !ceiling_abs_sign by assumption.
    eexists. split; reflexivity.
  - destruct dims as [|d1 [|d2 [|d3 [|? ?]]]]; try discriminate.
    destruct signs as [|s1 [|s2 [|s3 [|? ?]]]]; try discriminate.
    apply Forall_cons in Hdims as [Hd1 Hdims]. apply Forall_cons in Hdims as [Hd2 Hdims].
    apply Forall_cons in Hdims as [Hd3 _].
    apply Forall_cons in Hsigns as [Hs1 Hsigns]. apply Forall_cons in Hsigns as [Hs2 Hsigns].
    apply Forall_cons in Hsigns as [Hs3 _].
    simpl app. rewrite diagonal_extents_3d.
    rewrite !ceiling_abs_sign by assumption.
    eexists. split; reflexivity.
Qed.

End Flip.

(** ** [resize] on an input without a longest side *)

Section ResizeDegenerate.
Context `{L : Lib}.

(** X10. [resize] in "longest" mode on an input without spatial extents
    raises the [ValueError] of [max] on an empty sequence, and on an input
    whose longest spatial extent is 0 it raises [ZeroDivisionError]. *)
Theorem resize_longest_degenerate (img : Image) (spatial_size : py) (size_mode : string)
    (mode : option string) (align_corners anti_aliasing : option bool)
    (anti_aliasing_sigma : py) (dtype : option Dtype)
    (shape_override : option Shape) (lazy_evaluation : option bool) (st : Store)
    (target : Z) :
  String.eqb size_mode "all" = false ->
  as_int spatial_size = Some target ->
  (drop 1 (input_shape_of shape_override img st) = [] ->
   exists st',
     resize img spatial_size size_mode mode align_corners anti_aliasing
       anti_aliasing_sigma dtype shape_override lazy_evaluation st
     = (inl (ValueError "max() arg is an empty sequence"), st')) /\
  (py_max (drop 1 (input_shape_of shape_override img st)) = inr 0%Z ->
   exists st',
     resize img spatial_size size_mode mode align_corners anti_aliasing
       anti_aliasing_sigma dtype shape_override lazy_evaluation st
     = (inl ZeroDivisionError, st')).
Proof.
  intros Hmode Hint.
  split; intros Hdims; unfold resize, resize_op;
    unfold bind at 1; start_builder img st;
    unfold bind; rewrite (resolve_converted _ _ _ _ _ _ Hconv);
    unfold exc, resize_target; rewrite Hmode, Hint, Hdims; simpl; eauto.
Qed.

End ResizeDegenerate.

(** ** [zoom] *)

Lemma reciprocal_of_zero (factors : list py) :
  Forall (fun f => is_Some (as_number f)) factors ->
  Exists (fun f => is_zero f = true) factors ->
  mapE (fun f => py_div (PyInt 1) f) factors = inl ZeroDivisionError.
Proof.
  induction factors as [|f fs IH]; intros Hnum Hzero; [inversion Hzero|].
  apply Forall_cons in Hnum as [[q Hq] Hnum]. simpl.
  unfold py_div at 1. rewrite Hq. simpl as_number.
  unfold true_div at 1. destruct (Qeq_bool q 0) eqn:Hq0; [reflexivity|].
  apply Exists_cons in Hzero as [Hzero|Hzero].
  - unfold is_zero in Hzero. rewrite Hq, Hq0 in Hzero. discriminate.
  - rewrite (IH Hnum Hzero). reflexivity.
Qed.

Section Zoom.
Context `{L : Lib}.

(** X11. [zoom] with a factor 0 among numeric factors raises
    [ZeroDivisionError], before any mode is looked up and before any matrix
    is built. *)
Theorem zoom_zero_factor (img : Image) (factor : py) (mode padding_mode : option string)
    (align_corners keep_size : option bool) (dtype : option Dtype)
    (shape_override : option Shape) (lazy_evaluation : option bool) (st : Store)
    (factors : list py) :
  ensure_tuple_rep factor (ndim_of (input_shape_of shape_override img st)) = inr factors ->
  Forall (fun f => is_Some (as_number f)) factors ->
  Exists (fun f => is_zero f = true) factors ->
  exists st',
    zoom img factor mode padding_mode align_corners keep_size dtype shape_override
      lazy_evaluation st = (inl ZeroDivisionError, st').
Proof.
  intros Hrep Hnum Hzero. unfold zoom, zoom_op.
  unfold bind at 1. start_builder img st.
  unfold bind. rewrite (resolve_converted _ _ _ _ _ _ Hconv).
  unfold exc. rewrite Hrep. cbn [ExcMonad.bind].
  rewrite (reciprocal_of_zero _ Hnum Hzero). simpl. eauto.
Qed.

End Zoom.

(** ** Checks of [spacing], [rotate90] and the keys of [identity] *)

Section Checks.
Context `{L : Lib}.

(** X13. [spacing] with [diagonal = True] never gets to a record: it raises,
    and when a source spacing is given and both spacings fit the input the
    exception is the [ValueError] that says diagonal is not supported. *)
Theorem spacing_diagonal_unsupported (img : Image) (pixdim src_pixdim : py)
    (diagonal : option bool) (mode padding_mode : option string)
    (align_corners : option bool) (dtype : option Dtype)
    (shape_override : option Shape) (lazy_evaluation : option bool) (st : Store) :
  is_True diagonal = true ->
  exists e st',
    spacing img pixdim src_pixdim diagonal mode padding_mode align_corners dtype
      shape_override lazy_evaluation st = (inl e, st') /\
    (truthy src_pixdim = true ->
     (exists p, ensure_tuple_rep pixdim
                  (ndim_of (input_shape_of shape_override img st)) = inr p) ->
     (exists p, ensure_tuple_rep src_pixdim
                  (ndim_of (input_shape_of shape_override img st)) = inr p) ->
     e = ValueError "'diagonal' value of True is not currently supported").
Proof.
  intros Hdiag. unfold spacing, spacing_op.
  unfold bind at 1. start_builder img st.
  unfold bind. rewrite (resolve_converted _ _ _ _ _ _ Hconv).
  unfold exc, ExcMonad.bind. rewrite Hdiag.
  destruct (truthy src_pixdim) eqn:Htruthy.
  - destruct (ensure_tuple_rep pixdim _) as [e1|p1] eqn:H1.
    { eexists _, _. split; [reflexivity|]. intros _ [p Hp]. discriminate. }
    destruct (ensure_tuple_rep src_pixdim _) as [e2|p2] eqn:H2.
    { eexists _, _. split; [reflexivity|]. intros _ _ [p Hp]. discriminate. }
    eexists _, _. split; [reflexivity|]. reflexivity.
  - destruct (pixdim_of img_) as [e0|sp].
    { eexists _, _. split; [reflexivity|]. discriminate. }
    destruct (ensure_tuple_rep pixdim _) as [e1|p1].
    { eexists _, _. split; [reflexivity|]. discriminate. }
    destruct (ensure_tuple_rep sp _) as [e2|p2].
    { eexists _, _. split; [reflexivity|]. discriminate. }
    eexists _, _. split; [reflexivity|]. discriminate.
Qed.

(** X14. [rotate90] checks the number of axes before anything else: with
    other than two axes it raises the [ValueError] of the check and the store
    is exactly as before, not even a wrapper of the image is made. *)
Theorem rotate90_axes_check (img : Image) (k : option Z) (spatial_axes : list Z)
    (shape_override : option Shape) (lazy_evaluation : option bool) (st : Store) :
  length spatial_axes <> 2 ->
  rotate90 img k spatial_axes shape_override lazy_evaluation st
  = (inl (ValueError "'spatial_axes' must be a tuple of two integers indicating"), st).
Proof.
  intros Hlen. unfold rotate90, rotate90_op, bind.
  apply Nat.eqb_neq in Hlen. rewrite Hlen. reflexivity.
Qed.

(** X15. The record of [identity] has the key ["mode"] exactly when a mode
    was given, the key ["padding_mode"] exactly when a padding mode was
    given, and always the keys ["dtype"] and ["shape_override"]. *)
Theorem identity_metadata_keys (img : Image) (mode padding_mode : option string)
    (dtype : option Dtype) (shape_override : option Shape) (st : Store)
    (img_ : Image) (op : MetaMatrix) (st1 : Store) :
  identity_op img mode padding_mode dtype shape_override st = (inr (img_, op), st1) ->
  (metadata op !! "mode" = None <-> mode = None) /\
  (metadata op !! "padding_mode" = None <-> padding_mode = None) /\
  is_Some (metadata op !! "dtype") /\
  is_Some (metadata op !! "shape_override").
Proof.
  intros Hop. unfold identity_op in Hop.
  destruct (convert_to_tensor_spec img get_track_meta st) as (i & s1 & Hconv & _ & _).
  unfold bind at 1 in Hop. rewrite Hconv in Hop.
  unfold bind, exc in Hop. rewrite (resolve_converted _ _ _ _ _ _ Hconv) in Hop.
  unfold ExcMonad.bind, look_up_if_given, ExcMonad.bind in Hop.
  destruct mode as [m|], padding_mode as [p|];
    repeat match type of Hop with
           | context [look_up_option ?a ?b] => destruct (look_up_option a b)
           end;
    crunch Hop; simpl metadata;
    (split; [split; intros H;
             first [reflexivity | discriminate H | exfalso; vm_compute in H; discriminate H]|]);
    (split; [split; intros H;
             first [reflexivity | discriminate H | exfalso; vm_compute in H; discriminate H]|]);
    split; eexists; reflexivity.
Qed.

End Checks.

(** ** The properties above at concrete calls *)

Lemma deferred_call_appends_witness :
  let img := MetaTensor 1%positive (Reference.float_tensor [1; 10; 10]%Z) in
  let c := CallTranslate img [PyFloat 1; PyFloat 2] None None None in
  let st := Reference.resized_store in
  exists img_ op st1,
    @call_op (Reference.lib true) c None st = (inr (img_, op), st1) /\
    @call (Reference.lib true) c None None st = (inr (RImage img), pushed st 1%positive op) /\
    pending_operations (pushed st 1%positive op) 1%positive
    = pending_operations st 1%positive ++ [op] /\
    (forall l', l' <> 1%positive ->
                pending_operations (pushed st 1%positive op) l' = pending_operations st l').
Proof.
  intros img c st. eexists _, _, _. split; [vm_compute; reflexivity|].
  eapply (@deferred_call_appends (Reference.lib true) c None None st 1%positive
            (Reference.float_tensor [1; 10; 10]%Z)).
  - reflexivity.
  - reflexivity.
  - reflexivity.
  - vm_compute. reflexivity.
Defined.

Lemma untracked_call_returns_pair_witness :
  let img := MetaTensor 1%positive (Reference.float_tensor [1; 10; 10]%Z) in
  let c := CallTranslate img [PyFloat 1; PyFloat 2] None None None in
  let st := Reference.resized_store in
  exists img_ op st1,
    @call_op (Reference.lib false) c None st = (inr (img_, op), st1) /\
    @call (Reference.lib false) c None None st
    = (inr (RPair (Tensor (info (call_image c))) (Some op)), st).
Proof.
  intros img c st. eexists _, _, _. split; [vm_compute; reflexivity|].
  eapply (@untracked_call_returns_pair (Reference.lib false) c None None st).
  - reflexivity.
  - reflexivity.
  - vm_compute. reflexivity.
Defined.

Lemma input_shape_recorded_witness :
  let img := Tensor (Reference.float_tensor [2; 4; 5; 6]%Z) in
  let c := CallElastic3d img (1 # 2) 2 [[1; 0; 0]; [0; 1; 0]; [0; 0; 1]]%Q PyNone
             (Some "bilinear") None None in
  exists img_ op st1,
    @call_op (Reference.lib false) c None ∅ = (inr (img_, op), st1) /\
    shape_override_of op = Some [2; 4; 5; 6]%Z.
Proof.
  intros img c. eexists _, _, _. split; [vm_compute; reflexivity|].
  eapply (@input_shape_recorded (Reference.lib false) c None ∅).
  - reflexivity.
  - vm_compute. reflexivity.
Defined.

Lemma flip_shape_from_extents_witness :
  let img := MetaTensor 1%positive (Reference.float_tensor [1; 10; 10]%Z) in
  exists img_ op st1 flip_tx output_shape,
    @flip_op (Reference.lib true) img (PyInt 0) None Reference.resized_store
    = (inr (img_, op), st1) /\
    Reference.compatible_flip img_ (PyInt 0) = inr flip_tx /\
    transform op = TMatrix flip_tx /\
    shape_from_extents [1; 5; 5]%Z
      (map (apply_matrix flip_tx) (extents_from_shape [1; 5; 5]%Z)) = inr output_shape /\
    shape_override_of op = Some output_shape.
Proof.
  intros img.
  assert (Hop : exists img_ op st1,
             @flip_op (Reference.lib true) img (PyInt 0) None Reference.resized_store
             = (inr (img_, op), st1)) by (eexists _, _, _; vm_compute; reflexivity).
  destruct Hop as (img_ & op & st1 & Hop).
  destruct (@flip_shape_from_extents (Reference.lib true) img (PyInt 0) None
              Reference.resized_store img_ op st1 (or_introl eq_refl) Hop)
    as (flip_tx & output_shape & H1 & H2 & H3 & H4).
  exists img_, op, st1, flip_tx, output_shape.
  split; [exact Hop|]. split; [exact H1|]. split; [exact H2|]. split; [exact H3|exact H4].
Defined.

Lemma flip_preserves_shape_witness :
  let img := Tensor (Reference.float_tensor [1; 10; 40]%Z) in
  exists op,
    @flip_op (Reference.lib false) img (PyInt 1) None ∅ = (inr (img, op), ∅) /\
    shape_override_of op = Some [1; 10; 40]%Z.
Proof.
  intros img.
  apply (@flip_preserves_shape (Reference.lib false) img (PyInt 1) None ∅ img ∅
           1%Z [10; 40]%Z [1; -1]%Q).
  - reflexivity.
  - reflexivity.
  - left. reflexivity.
  - repeat (apply List.Forall_cons; [lia|]). apply List.Forall_nil.
  - reflexivity.
  - repeat (apply List.Forall_cons; [auto|]). apply List.Forall_nil.
  - vm_compute. reflexivity.
Defined.


Lemma deferred_failure_is_validation_witness :
  let c := CallTranslate (Tensor (Reference.float_tensor [1; 10; 10]%Z)) [PyFloat 1]
             None None None in
  let e := ValueError "'translate' length must be equal to 'img' spatial dimensions" in
  @call (Reference.lib false) c None None ∅ = (inl e, ∅) /\
  @call_op (Reference.lib false) c None ∅ = (inl e, ∅).
Proof.
  intros c e.
  assert (Hcall : @call (Reference.lib false) c None None ∅ = (inl e, ∅))
    by (vm_compute; reflexivity).
  split; [exact Hcall|].
  exact (@deferred_failure_is_validation (Reference.lib false) c None None ∅ e ∅
           eq_refl Hcall).
Defined.

Lemma resize_longest_degenerate_witness :
  (exists st',
      @resize (Reference.lib false) (Tensor (Reference.float_tensor [3]%Z)) (PyInt 20)
        "longest" (Some "bilinear") None None PyNone None None None ∅
      = (inl (ValueError "max() arg is an empty sequence"), st')) /\
  (exists st',
      @resize (Reference.lib false) (Tensor (Reference.float_tensor [3; 0; 0]%Z)) (PyInt 20)
        "longest" (Some "bilinear") None None PyNone None None None ∅
      = (inl ZeroDivisionError, st')).
Proof.
  split.
  - apply (@resize_longest_degenerate (Reference.lib false)
             (Tensor (Reference.float_tensor [3]%Z)) (PyInt 20) "longest" (Some "bilinear")
             None None PyNone None None None ∅ 20%Z eq_refl eq_refl).
    reflexivity.
  - apply (@resize_longest_degenerate (Reference.lib false)
             (Tensor (Reference.float_tensor [3; 0; 0]%Z)) (PyInt 20) "longest"
             (Some "bilinear") None None PyNone None None None ∅ 20%Z eq_refl eq_refl).
    reflexivity.
Defined.

Lemma zoom_zero_factor_witness :
  exists st',
    @zoom (Reference.lib false) (Tensor (Reference.float_tensor [1; 10; 10]%Z))
      (PyTuple [PyFloat 2; PyInt 0]) (Some "bilinear") (Some "border") None None None None
      None ∅ = (inl ZeroDivisionError, st').
Proof.
  apply (@zoom_zero_factor (Reference.lib false)
           (Tensor (Reference.float_tensor [1; 10; 10]%Z)) (PyTuple [PyFloat 2; PyInt 0])
           (Some "bilinear") (Some "border") None None None None None ∅
           [PyFloat 2; PyInt 0]).
  - reflexivity.
  - repeat (apply List.Forall_cons; [eexists; reflexivity|]). apply List.Forall_nil.
  - apply List.Exists_cons_tl, List.Exists_cons_hd. reflexivity.
Defined.

Lemma spacing_diagonal_unsupported_witness :
  exists e st',
    @spacing (Reference.lib false) (Tensor (Reference.float_tensor [1; 10; 10]%Z))
      (PyFloat 2) (PyFloat 1) (Some true) (Some "bilinear") (Some "border") None None None
      None ∅ = (inl e, st') /\
    e = ValueError "'diagonal' value of True is not currently supported".
Proof.
  destruct (@spacing_diagonal_unsupported (Reference.lib false)
              (Tensor (Reference.float_tensor [1; 10; 10]%Z)) (PyFloat 2) (PyFloat 1)
              (Some true) (Some "bilinear") (Some "border") None None None None ∅ eq_refl)
    as (e & st' & Hrun & He).
  exists e, st'. split; [exact Hrun|].
  apply He; [reflexivity| |]; eexists; reflexivity.
Defined.

Lemma rotate90_axes_check_witness :
  @rotate90 (Reference.lib true) (Tensor (Reference.float_tensor [1; 10; 10]%Z)) (Some 1%Z)
    [0; 1; 2]%Z None None ∅
  = (inl (ValueError "'spatial_axes' must be a tuple of two integers indicating"), ∅).
Proof.
  apply (@rotate90_axes_check (Reference.lib true)). simpl. lia.
Defined.

Lemma identity_metadata_keys_witness :
  let img := Tensor (Reference.float_tensor [1; 10; 10]%Z) in
  exists img_ op st1,
    @identity_op (Reference.lib false) img (Some "nearest") None None None ∅
    = (inr (img_, op), st1) /\
    (metadata op !! "mode" = None <-> Some "nearest" = @None string) /\
    (metadata op !! "padding_mode" = None <-> @None string = None) /\
    is_Some (metadata op !! "dtype") /\
    is_Some (metadata op !! "shape_override").
Proof.
  intros img. eexists _, _, _. split; [vm_compute; reflexivity|].
  eapply (@identity_metadata_keys (Reference.lib false) img (Some "nearest") None None None ∅).
  vm_compute. reflexivity.
Defined.
